(** * rest_framework_simplejwt.views: token views with cookie transport

    A shallow embedding of [src/rest_framework_simplejwt/views.py].

    - Python dictionaries with string keys ([request.data],
      [request.COOKIES], [serializer.validated_data], a token's
      [payload], the cookies of a response) are finite maps [gmap string _].
    - A view method that reads or mutates [self.request] runs in the
      monad [M]: the request is the state (the [request] argument of
      [post] and [self.request] are one and the same object), and a
      raised exception ends the computation.
    - The collaborators that live outside the file (settings, clock, URL
      routing, token parsing, serializers) are the fields of [Env].
    - Each Python class is a [Module]; a method that calls [self.m(...)]
      takes the resolved method [self_m] as an argument, and the concrete
      view classes tie the knot following Python's method resolution order. *)

From Stdlib Require Import ZArith String.
From stdpp Require Import base option gmap strings.

Open Scope Z_scope.

(** ** Values *)

(** A naive [datetime], as a count of microseconds on the local wall
    clock, and a [timedelta] in microseconds: [datetime + timedelta] is
    integer addition. *)
Definition datetime := Z.
Definition timedelta := Z.

(** JSON objects whose fields are strings: [request.data] and
    [serializer.validated_data]. *)
Abbreviation Data := (gmap string string).

(** The claims of a parsed token ([token.payload]); [exp] is an integer
    POSIX timestamp. *)
Abbreviation Payload := (gmap string Z).

(** Python truth value of a string: only [''] is false. *)
Definition py_bool (s : string) : bool :=
  match s with
  | EmptyString => false
  | String _ _ => true
  end.

(** [x or None] for a boolean [x]. *)
Definition or_None (x : bool) : option bool :=
  if x then Some true else None.

(** ** Exceptions and results *)

Inductive Exn :=
| ImportError (msg : string)
| TokenError (arg0 : string)
| InvalidToken (detail : string)
| NotAuthenticated (detail : string)
| KeyError (key : string)
| AttributeError (name : string)
| OtherError (what : string).
(* [OtherError]: what a serializer raises besides [TokenError]
   (ValidationError, AuthenticationFailed, ...). *)

Inductive Result (A : Type) :=
| Ok (a : A)
| Raise (e : Exn).
Arguments Ok {A} a.
Arguments Raise {A} e.

(** [d[key]] on a dictionary. *)
Definition getitem {V : Type} (d : gmap string V) (key : string) : Result V :=
  match d !! key with
  | Some v => Ok v
  | None => Raise (KeyError key)
  end.

(** ** Requests and responses *)

(** [data]: the parsed body; [data_mutable]: whether [request.data]
    accepts an item assignment (the dict of a JSON body does; the
    [QueryDict] that the framework builds for a form-encoded body, an
    empty one included, is immutable); [COOKIES]: the cookie jar sent by
    the client; [csrf_token]: whether [csrf.get_token] was called on this
    request. *)
Record Request := {
  data : Data;
  data_mutable : bool;
  COOKIES : gmap string string;
  csrf_token : bool
}.

Definition set_data (request : Request) (d : Data) : Request :=
  {| data := d; data_mutable := data_mutable request;
     COOKIES := COOKIES request; csrf_token := csrf_token request |}.

(** [request.data[key] = value]: an immutable [QueryDict] raises
    [AttributeError]. *)
Definition setitem (request : Request) (key value : string) : Result Request :=
  if data_mutable request then
    Ok (set_data request (<[key := value]> (data request)))
  else
    Raise (AttributeError "This QueryDict instance is immutable").

(** The keyword arguments of one [response.set_cookie(key, value, ...)]. *)
Record Cookie := {
  value : string;
  expires : datetime;
  domain : option string;
  path : string;
  secure : option bool;
  httponly : bool;
  samesite : option string
}.

(** What a response asks the browser to do with one cookie name:
    [set_cookie] stores a cookie, [delete_cookie(key, domain, path)] is
    Django's request to expire the cookie of that name, domain and path
    (a cookie with an empty value, [max_age=0] and
    [expires='Thu, 01 Jan 1970 00:00:00 GMT']). *)
Inductive Directive :=
| SetCookie (c : Cookie)
| DeleteCookie (domain : option string) (path : string).

Record Response := {
  resp_data : Data;
  status_code : Z;
  cookies : gmap string Directive
}.

Definition HTTP_200_OK : Z := 200.

(** [Response(data, status=status)]: a fresh response without cookies. *)
Definition mkResponse (d : Data) (status : Z) : Response :=
  {| resp_data := d; status_code := status; cookies := ∅ |}.

Definition set_cookie (response : Response) (key : string) (c : Cookie) : Response :=
  {| resp_data := resp_data response;
     status_code := status_code response;
     cookies := <[key := SetCookie c]> (cookies response) |}.

Definition delete_cookie (response : Response) (key : string)
    (domain : option string) (path : string) : Response :=
  {| resp_data := resp_data response;
     status_code := status_code response;
     cookies := <[key := DeleteCookie domain path]> (cookies response) |}.

(** ** The view monad: state [self.request], exceptions *)

Definition M (A : Type) : Type := Request → Result (A * Request).

#[global] Instance M_ret : MRet M := λ A a request, Ok (a, request).

#[global] Instance M_bind : MBind M := λ A B f m request,
  match m request with
  | Ok (a, request') => f a request'
  | Raise e => Raise e
  end.

Definition raise {A : Type} (e : Exn) : M A := λ _, Raise e.

Definition lift {A : Type} (r : Result A) : M A := λ request,
  match r with
  | Ok a => Ok (a, request)
  | Raise e => Raise e
  end.

Definition get_request : M Request := λ request, Ok (request, request).

Definition put_request (request : Request) : M unit := λ _, Ok (tt, request).

(** [csrf.get_token(self.request)] *)
Definition csrf_get_token : M unit := λ request,
  Ok (tt, {| data := data request; data_mutable := data_mutable request;
             COOKIES := COOKIES request; csrf_token := true |}).

(** ** Settings and collaborators *)

(** [api_settings].  [AUTH_COOKIE] is the cookie name; the unset value is
    the empty string, false like Python's [None] in
    [if api_settings.AUTH_COOKIE]. *)
Record Settings := {
  AUTH_COOKIE : string;
  AUTH_COOKIE_DOMAIN : option string;
  AUTH_COOKIE_PATH : string;
  AUTH_COOKIE_SECURE : bool;
  AUTH_COOKIE_SAMESITE : option string;
  ROTATE_REFRESH_TOKENS : bool;
  REFRESH_TOKEN_LIFETIME : timedelta;
  ACCESS_TOKEN_LIFETIME : timedelta;
  TOKEN_OBTAIN_SERIALIZER : string;
  TOKEN_REFRESH_SERIALIZER : string;
  SLIDING_TOKEN_OBTAIN_SERIALIZER : string;
  SLIDING_TOKEN_REFRESH_SERIALIZER : string;
  TOKEN_VERIFY_SERIALIZER : string;
  TOKEN_BLACKLIST_SERIALIZER : string
}.

(** A serializer class, run on [request.data]:
    [serializer.is_valid(raise_exception=True)] either raises or leaves
    [serializer.validated_data]. *)
Definition Serializer := Data → Result Data.

(** What the views call outside this file.
    - [datetime_now]: the reading of [datetime.now()] during the request;
    - [datetime_fromtimestamp]: [datetime.fromtimestamp], the local
      wall-clock time of a POSIX timestamp;
    - [reverse]: the URL of a named route in the deployment's URL
      configuration, which registers every view name the views use (for
      a name that is not routed Django raises [NoReverseMatch]; such a
      deployment is outside this model);
    - [RefreshToken]: the constructor of the token class, which verifies
      the raw token and raises [TokenError] or exposes the payload;
    - [import_string]: [None] is an [ImportError]. *)
Record Env := {
  api_settings : Settings;
  datetime_now : datetime;
  datetime_fromtimestamp : Z → datetime;
  reverse : string → string;
  RefreshToken : string → Result Payload;
  import_string : string → option Serializer
}.

(** [if api_settings.AUTH_COOKIE:] *)
Definition cookie_transport (E : Env) : bool :=
  py_bool (AUTH_COOKIE (api_settings E)).

(** ['{}_refresh'.format(api_settings.AUTH_COOKIE)] *)
Definition refresh_cookie_name (E : Env) : string :=
  AUTH_COOKIE (api_settings E) +:+ "_refresh".

(** [_('Refresh cookie not set. Try to authenticate first.')] *)
Definition refresh_cookie_not_set : string :=
  "Refresh cookie not set. Try to authenticate first.".

(** ** class TokenViewBase *)

Module TokenViewBase.

Definition serializer_class : option Serializer := None.

Definition get_serializer_class (E : Env) (_serializer_class : string)
    : Result Serializer :=
  match serializer_class with
  | Some cls => Ok cls
  | None =>
      match import_string E _serializer_class with
      | Some cls => Ok cls
      | None =>
          Raise (ImportError
                   ("Could not import serializer '" +:+ _serializer_class +:+ "'"))
      end
  end.

(** [serializer.is_valid(raise_exception=True)] inside
    [try: ... except TokenError as e: raise InvalidToken(e.args[0])];
    any other exception propagates. *)
Definition is_valid (serializer : Serializer) (d : Data) : M Data :=
  match serializer d with
  | Ok validated_data => mret validated_data
  | Raise (TokenError arg0) => raise (InvalidToken arg0)
  | Raise e => raise e
  end.

Definition set_auth_cookies (response : Response) (data : Data) : M Response :=
  mret response.

Definition post (E : Env) (_serializer_class : string)
    (self_set_auth_cookies : Response → Data → M Response) : M Response :=
  request ← get_request;
  serializer ← lift (get_serializer_class E _serializer_class);
  validated_data ← is_valid serializer (data request);
  let response := mkResponse validated_data HTTP_200_OK in
  if cookie_transport E then
    csrf_get_token;;
    self_set_auth_cookies response validated_data
  else
    mret response.

End TokenViewBase.

(** ** class TokenRefreshViewBase(TokenViewBase) *)

Module TokenRefreshViewBase.

Definition extract_token_from_cookie (request : Request) : Result Request :=
  Ok request.

(** [request = self.extract_token_from_cookie(request)] mutates the one
    request object; [super().post] is [TokenViewBase.post]. *)
Definition post (E : Env) (_serializer_class : string)
    (self_extract_token_from_cookie : Request → Result Request)
    (self_set_auth_cookies : Response → Data → M Response) : M Response :=
  (if cookie_transport E then
     request ← get_request;
     request' ← lift (self_extract_token_from_cookie request);
     put_request request'
   else
     mret tt);;
  TokenViewBase.post E _serializer_class self_set_auth_cookies.

End TokenRefreshViewBase.

(** ** class TokenCookieViewMixin *)

Module TokenCookieViewMixin.

Definition token_refresh_view_name : string := "token_refresh".

Definition extract_token_from_cookie (E : Env) (request : Request)
    : Result Request :=
  if bool_decide (data request = ∅) then
    match COOKIES request !! refresh_cookie_name E with
    | Some token =>
        if py_bool token then
          setitem request "refresh" token
        else
          Raise (NotAuthenticated refresh_cookie_not_set)
    | None => Raise (NotAuthenticated refresh_cookie_not_set)
    end
  else
    Ok request.

Definition get_refresh_token_expiration (E : Env) : M datetime :=
  mret (datetime_now E + REFRESH_TOKEN_LIFETIME (api_settings E)).

Definition set_auth_cookies (E : Env)
    (self_get_refresh_token_expiration : M datetime)
    (response : Response) (data : Data) : M Response :=
  let s := api_settings E in
  expires ← self_get_refresh_token_expiration;
  access ← lift (getitem data "access");
  let response :=
    set_cookie response (AUTH_COOKIE s)
      {| value := access;
         expires := expires;
         domain := AUTH_COOKIE_DOMAIN s;
         path := AUTH_COOKIE_PATH s;
         secure := or_None (AUTH_COOKIE_SECURE s);
         httponly := true;
         samesite := AUTH_COOKIE_SAMESITE s |} in
  match data !! "refresh" with
  | Some refresh =>
      mret (set_cookie response (refresh_cookie_name E)
              {| value := refresh;
                 expires := expires;
                 domain := AUTH_COOKIE_DOMAIN s;
                 path := reverse E token_refresh_view_name;
                 secure := or_None (AUTH_COOKIE_SECURE s);
                 httponly := true;
                 samesite := AUTH_COOKIE_SAMESITE s |})
  | None => mret response
  end.

End TokenCookieViewMixin.

(** ** class TokenObtainPairView(TokenCookieViewMixin, TokenViewBase) *)

Module TokenObtainPairView.

Definition _serializer_class (E : Env) : string :=
  TOKEN_OBTAIN_SERIALIZER (api_settings E).

Definition get_refresh_token_expiration :=
  TokenCookieViewMixin.get_refresh_token_expiration.

Definition set_auth_cookies (E : Env) : Response → Data → M Response :=
  TokenCookieViewMixin.set_auth_cookies E (get_refresh_token_expiration E).

Definition post (E : Env) : M Response :=
  TokenViewBase.post E (_serializer_class E) (set_auth_cookies E).

End TokenObtainPairView.

(** ** class TokenRefreshView(TokenCookieViewMixin, TokenRefreshViewBase) *)

Module TokenRefreshView.

Definition _serializer_class (E : Env) : string :=
  TOKEN_REFRESH_SERIALIZER (api_settings E).

Definition extract_token_from_cookie :=
  TokenCookieViewMixin.extract_token_from_cookie.

Definition get_refresh_token_expiration (E : Env) : M datetime :=
  if ROTATE_REFRESH_TOKENS (api_settings E) then
    TokenCookieViewMixin.get_refresh_token_expiration E
  else
    request ← get_request;
    raw ← lift (getitem (data request) "refresh");
    payload ← lift (RefreshToken E raw);
    exp ← lift (getitem payload "exp");
    mret (datetime_fromtimestamp E exp).

Definition set_auth_cookies (E : Env) : Response → Data → M Response :=
  TokenCookieViewMixin.set_auth_cookies E (get_refresh_token_expiration E).

Definition post (E : Env) : M Response :=
  TokenRefreshViewBase.post E (_serializer_class E)
    (extract_token_from_cookie E) (set_auth_cookies E).

End TokenRefreshView.

(** ** class SlidingTokenCookieViewMixin *)

Module SlidingTokenCookieViewMixin.

Definition extract_token_from_cookie (E : Env) (request : Request)
    : Result Request :=
  if bool_decide (data request = ∅) then
    match COOKIES request !! AUTH_COOKIE (api_settings E) with
    | Some token =>
        if py_bool token then
          setitem request "token" token
        else
          Raise (NotAuthenticated refresh_cookie_not_set)
    | None => Raise (NotAuthenticated refresh_cookie_not_set)
    end
  else
    Ok request.

Definition set_auth_cookies (E : Env) (response : Response) (data : Data)
    : M Response :=
  let s := api_settings E in
  token ← lift (getitem data "token");
  mret (set_cookie response (AUTH_COOKIE s)
          {| value := token;
             expires := datetime_now E + REFRESH_TOKEN_LIFETIME s;
             domain := AUTH_COOKIE_DOMAIN s;
             path := AUTH_COOKIE_PATH s;
             secure := or_None (AUTH_COOKIE_SECURE s);
             httponly := true;
             samesite := AUTH_COOKIE_SAMESITE s |}).

End SlidingTokenCookieViewMixin.

(** ** class TokenObtainSlidingView(SlidingTokenCookieViewMixin, TokenViewBase) *)

Module TokenObtainSlidingView.

Definition _serializer_class (E : Env) : string :=
  SLIDING_TOKEN_OBTAIN_SERIALIZER (api_settings E).

Definition set_auth_cookies := SlidingTokenCookieViewMixin.set_auth_cookies.

Definition post (E : Env) : M Response :=
  TokenViewBase.post E (_serializer_class E) (set_auth_cookies E).

End TokenObtainSlidingView.

(** ** class TokenRefreshSlidingView(SlidingTokenCookieViewMixin, TokenRefreshViewBase) *)

Module TokenRefreshSlidingView.

Definition _serializer_class (E : Env) : string :=
  SLIDING_TOKEN_REFRESH_SERIALIZER (api_settings E).

Definition extract_token_from_cookie :=
  SlidingTokenCookieViewMixin.extract_token_from_cookie.

Definition set_auth_cookies := SlidingTokenCookieViewMixin.set_auth_cookies.

Definition post (E : Env) : M Response :=
  TokenRefreshViewBase.post E (_serializer_class E)
    (extract_token_from_cookie E) (set_auth_cookies E).

End TokenRefreshSlidingView.

(** ** class TokenVerifyView(TokenViewBase) *)

Module TokenVerifyView.

Definition _serializer_class (E : Env) : string :=
  TOKEN_VERIFY_SERIALIZER (api_settings E).

Definition set_auth_cookies := TokenViewBase.set_auth_cookies.

Definition post (E : Env) : M Response :=
  TokenViewBase.post E (_serializer_class E) set_auth_cookies.

End TokenVerifyView.

(** ** class TokenCookieDeleteView(APIView) *)

Module TokenCookieDeleteView.

Definition token_refresh_view_name : string := "token_refresh".

Definition delete_auth_cookies (E : Env) (response : Response) : Response :=
  let s := api_settings E in
  let response :=
    delete_cookie response (AUTH_COOKIE s)
      (AUTH_COOKIE_DOMAIN s) (AUTH_COOKIE_PATH s) in
  delete_cookie response (refresh_cookie_name E)
    None (reverse E token_refresh_view_name).

Definition post (E : Env) : M Response :=
  let response := mkResponse ∅ HTTP_200_OK in
  if cookie_transport E then
    mret (delete_auth_cookies E response)
  else
    mret response.

End TokenCookieDeleteView.

(** ** class TokenBlacklistView(TokenViewBase) *)

Module TokenBlacklistView.

Definition _serializer_class (E : Env) : string :=
  TOKEN_BLACKLIST_SERIALIZER (api_settings E).

Definition set_auth_cookies := TokenViewBase.set_auth_cookies.

Definition post (E : Env) : M Response :=
  TokenViewBase.post E (_serializer_class E) set_auth_cookies.

End TokenBlacklistView.

(** ** The token views, and method lookup by view *)

Inductive View :=
| ObtainPair
| RefreshPair
| ObtainSliding
| RefreshSliding
| Verify
| Blacklist.

Definition _serializer_class (v : View) : Env → string :=
  match v with
  | ObtainPair => TokenObtainPairView._serializer_class
  | RefreshPair => TokenRefreshView._serializer_class
  | ObtainSliding => TokenObtainSlidingView._serializer_class
  | RefreshSliding => TokenRefreshSlidingView._serializer_class
  | Verify => TokenVerifyView._serializer_class
  | Blacklist => TokenBlacklistView._serializer_class
  end.

Definition set_auth_cookies (v : View) (E : Env) : Response → Data → M Response :=
  match v with
  | ObtainPair => TokenObtainPairView.set_auth_cookies E
  | RefreshPair => TokenRefreshView.set_auth_cookies E
  | ObtainSliding => TokenObtainSlidingView.set_auth_cookies E
  | RefreshSliding => TokenRefreshSlidingView.set_auth_cookies E
  | Verify => TokenVerifyView.set_auth_cookies
  | Blacklist => TokenBlacklistView.set_auth_cookies
  end.

Definition post (v : View) : Env → M Response :=
  match v with
  | ObtainPair => TokenObtainPairView.post
  | RefreshPair => TokenRefreshView.post
  | ObtainSliding => TokenObtainSlidingView.post
  | RefreshSliding => TokenRefreshSlidingView.post
  | Verify => TokenVerifyView.post
  | Blacklist => TokenBlacklistView.post
  end.

(** Only the two views built on [TokenCookieViewMixin] have this method. *)
Definition get_refresh_token_expiration (v : View) (E : Env) : M datetime :=
  match v with
  | ObtainPair => TokenObtainPairView.get_refresh_token_expiration E
  | RefreshPair => TokenRefreshView.get_refresh_token_expiration E
  | _ => raise (AttributeError "get_refresh_token_expiration")
  end.

(** The views of the access/refresh pair, built on [TokenCookieViewMixin],
    and those of the sliding token, built on [SlidingTokenCookieViewMixin]. *)
Definition is_pair (v : View) : bool :=
  match v with
  | ObtainPair | RefreshPair => true
  | _ => false
  end.

Definition is_sliding (v : View) : bool :=
  match v with
  | ObtainSliding | RefreshSliding => true
  | _ => false
  end.

(** The request as [TokenViewBase.post] receives it: the refresh views run
    [extract_token_from_cookie] first when [AUTH_COOKIE] is set (the two
    lines of [TokenRefreshViewBase.post] before [super().post]); the other
    views hand their request over as it is. *)
Definition resolve (v : View) (E : Env) (request : Request) : Result Request :=
  match v with
  | RefreshPair =>
      if cookie_transport E
      then TokenRefreshView.extract_token_from_cookie E request
      else Ok request
  | RefreshSliding =>
      if cookie_transport E
      then TokenRefreshSlidingView.extract_token_from_cookie E request
      else Ok request
  | _ => Ok request
  end.

(** The request after [csrf.get_token(self.request)]. *)
Definition with_csrf_token (request : Request) : Request :=
  {| data := data request; data_mutable := data_mutable request;
     COOKIES := COOKIES request; csrf_token := true |}.

(** ** Vocabulary of the statements *)

(** The cookies of the two [set_cookie] calls of
    [TokenCookieViewMixin.set_auth_cookies], and of the one call of
    [SlidingTokenCookieViewMixin.set_auth_cookies]. *)
Definition pair_access_cookie (E : Env) (access : string) (expiry : datetime)
    : Cookie :=
  {| value := access; expires := expiry;
     domain := AUTH_COOKIE_DOMAIN (api_settings E);
     path := AUTH_COOKIE_PATH (api_settings E);
     secure := or_None (AUTH_COOKIE_SECURE (api_settings E));
     httponly := true;
     samesite := AUTH_COOKIE_SAMESITE (api_settings E) |}.

Definition pair_refresh_cookie (E : Env) (refresh : string) (expiry : datetime)
    : Cookie :=
  {| value := refresh; expires := expiry;
     domain := AUTH_COOKIE_DOMAIN (api_settings E);
     path := reverse E TokenCookieViewMixin.token_refresh_view_name;
     secure := or_None (AUTH_COOKIE_SECURE (api_settings E));
     httponly := true;
     samesite := AUTH_COOKIE_SAMESITE (api_settings E) |}.

Definition sliding_cookie (E : Env) (token : string) : Cookie :=
  {| value := token;
     expires := datetime_now E + REFRESH_TOKEN_LIFETIME (api_settings E);
     domain := AUTH_COOKIE_DOMAIN (api_settings E);
     path := AUTH_COOKIE_PATH (api_settings E);
     secure := or_None (AUTH_COOKIE_SECURE (api_settings E));
     httponly := true;
     samesite := AUTH_COOKIE_SAMESITE (api_settings E) |}.

(** The environment under another [ACCESS_TOKEN_LIFETIME]. *)
Definition set_ACCESS_TOKEN_LIFETIME (E : Env) (lifetime : timedelta) : Env :=
  let s := api_settings E in
  {| api_settings :=
       {| AUTH_COOKIE := AUTH_COOKIE s;
          AUTH_COOKIE_DOMAIN := AUTH_COOKIE_DOMAIN s;
          AUTH_COOKIE_PATH := AUTH_COOKIE_PATH s;
          AUTH_COOKIE_SECURE := AUTH_COOKIE_SECURE s;
          AUTH_COOKIE_SAMESITE := AUTH_COOKIE_SAMESITE s;
          ROTATE_REFRESH_TOKENS := ROTATE_REFRESH_TOKENS s;
          REFRESH_TOKEN_LIFETIME := REFRESH_TOKEN_LIFETIME s;
          ACCESS_TOKEN_LIFETIME := lifetime;
          TOKEN_OBTAIN_SERIALIZER := TOKEN_OBTAIN_SERIALIZER s;
          TOKEN_REFRESH_SERIALIZER := TOKEN_REFRESH_SERIALIZER s;
          SLIDING_TOKEN_OBTAIN_SERIALIZER := SLIDING_TOKEN_OBTAIN_SERIALIZER s;
          SLIDING_TOKEN_REFRESH_SERIALIZER := SLIDING_TOKEN_REFRESH_SERIALIZER s;
          TOKEN_VERIFY_SERIALIZER := TOKEN_VERIFY_SERIALIZER s;
          TOKEN_BLACKLIST_SERIALIZER := TOKEN_BLACKLIST_SERIALIZER s |};
     datetime_now := datetime_now E;
     datetime_fromtimestamp := datetime_fromtimestamp E;
     reverse := reverse E;
     RefreshToken := RefreshToken E;
     import_string := import_string E |}.

(** ['key' in d] *)
Definition contains {V : Type} (d : gmap string V) (key : string) : bool :=
  match d !! key with
  | Some _ => true
  | None => false
  end.

(** What the cookie delivery of a view needs from the validated payload:
    the pair views read [data['access']], the sliding views
    [data['token']] (the payloads the serializers of these operations
    produce); the refresh view without rotation also parses the incoming
    refresh token of the request body once more and reads its [exp]. *)
Definition delivery_defined (v : View) (E : Env) (request : Request) (d : Data)
    : bool :=
  match v with
  | ObtainPair => contains d "access"
  | RefreshPair =>
      contains d "access" &&
      (ROTATE_REFRESH_TOKENS (api_settings E) ||
       match data request !! "refresh" with
       | Some raw =>
           match RefreshToken E raw with
           | Ok payload => contains payload "exp"
           | Raise _ => false
           end
       | None => false
       end)
  | ObtainSliding | RefreshSliding => contains d "token"
  | Verify | Blacklist => true
  end.

(** Modelled from the spec: the verify serializer of [serializers.py],
    which is not among the sources.  "Verify: input = any token string.
    Succeeds with an empty payload if the token verifies (decodable,
    unexpired, not blacklisted); otherwise fails" with the token error
    that [post] turns into [InvalidToken].  [check raw] is the
    verification of the raw token by the token primitive: [None] when the
    token verifies, [Some msg] for [TokenError(msg)].  A body without the
    ['token'] field does not validate. *)
Definition TokenVerifySerializer (check : string → option string) : Serializer :=
  λ d,
    match d !! "token" with
    | None => Raise (OtherError "This field is required.")
    | Some raw =>
        match check raw with
        | None => Ok ∅
        | Some msg => Raise (TokenError msg)
        end
    end.

(** ** A sample deployment *)

Module Sample.

Definition settings_of (name : string) (rotate : bool) : Settings :=
  {| AUTH_COOKIE := name;
     AUTH_COOKIE_DOMAIN := Some "example.com";
     AUTH_COOKIE_PATH := "/";
     AUTH_COOKIE_SECURE := true;
     AUTH_COOKIE_SAMESITE := Some "Lax";
     ROTATE_REFRESH_TOKENS := rotate;
     REFRESH_TOKEN_LIFETIME := 86400000000;
     ACCESS_TOKEN_LIFETIME := 300000000;
     TOKEN_OBTAIN_SERIALIZER := "TokenObtainPairSerializer";
     TOKEN_REFRESH_SERIALIZER := "TokenRefreshSerializer";
     SLIDING_TOKEN_OBTAIN_SERIALIZER := "TokenObtainSlidingSerializer";
     SLIDING_TOKEN_REFRESH_SERIALIZER := "TokenRefreshSlidingSerializer";
     TOKEN_VERIFY_SERIALIZER := "TokenVerifySerializer";
     TOKEN_BLACKLIST_SERIALIZER := "TokenBlacklistSerializer" |}.

(** One refresh token [R1] expiring at timestamp 5000, one sliding
    token [S1]; everything else is rejected. *)
Definition parse (raw : string) : Result Payload :=
  if String.eqb raw "R1" then Ok {[ "exp" := 5000 ]}
  else if String.eqb raw "S1" then Ok {[ "exp" := 6000 ]}
  else Raise (TokenError "Token is invalid or expired").

Definition obtain_pair : Serializer := λ d,
  match d !! "username", d !! "password" with
  | Some "a", Some "a" => Ok {[ "access" := "A1"; "refresh" := "R1" ]}
  | _, _ => Raise (OtherError "No active account found with the given credentials")
  end.

(** The refresh serializer answers with a new access token and echoes
    the refresh token (a new one [R2] when rotating). *)
Definition refresh_pair (rotate : bool) : Serializer := λ d,
  match d !! "refresh" with
  | None => Raise (OtherError "This field is required.")
  | Some raw =>
      match parse raw with
      | Raise e => Raise e
      | Ok _ =>
          Ok {[ "access" := "A2";
                "refresh" := if rotate then "R2" else raw ]}
      end
  end.

Definition obtain_sliding : Serializer := λ d,
  match d !! "username", d !! "password" with
  | Some "a", Some "a" => Ok {[ "token" := "S1" ]}
  | _, _ => Raise (OtherError "No active account found with the given credentials")
  end.

Definition refresh_sliding : Serializer := λ d,
  match d !! "token" with
  | None => Raise (OtherError "This field is required.")
  | Some raw =>
      match parse raw with
      | Raise e => Raise e
      | Ok _ => Ok {[ "token" := "S2" ]}
      end
  end.

Definition verify : Serializer := λ d,
  match d !! "token" with
  | None => Raise (OtherError "This field is required.")
  | Some raw =>
      match parse raw with
      | Raise e => Raise e
      | Ok _ => Ok ∅
      end
  end.

Definition import (rotate : bool) (dotted_path : string) : option Serializer :=
  if String.eqb dotted_path "TokenObtainPairSerializer" then Some obtain_pair
  else if String.eqb dotted_path "TokenRefreshSerializer" then Some (refresh_pair rotate)
  else if String.eqb dotted_path "TokenObtainSlidingSerializer" then Some obtain_sliding
  else if String.eqb dotted_path "TokenRefreshSlidingSerializer" then Some refresh_sliding
  else if String.eqb dotted_path "TokenVerifySerializer" then Some verify
  else if String.eqb dotted_path "TokenBlacklistSerializer" then Some verify
  else None.

Definition routes (viewname : string) : string :=
  if String.eqb viewname "token_refresh" then "/api/token/refresh/" else "/".

Definition env_of (name : string) (rotate : bool) : Env :=
  {| api_settings := settings_of name rotate;
     datetime_now := 1000000000;
     datetime_fromtimestamp := λ t, t * 1000000;
     reverse := routes;
     RefreshToken := parse;
     import_string := import rotate |}.

(** Cookie transport with the cookie name [jwt]; body transport. *)
Definition env (rotate : bool) : Env := env_of "jwt" rotate.

Definition body_env : Env := env_of EmptyString false.

(** Requests: credentials in the body; an empty body with the refresh
    cookie; an empty body with the sliding cookie; a body without the
    token field next to a refresh cookie; an empty-valued cookie. *)
Definition login : Request :=
  {| data := {[ "username" := "a"; "password" := "a" ]}; data_mutable := true;
     COOKIES := ∅; csrf_token := false |}.

Definition with_refresh_cookie : Request :=
  {| data := ∅; data_mutable := true; COOKIES := {[ "jwt_refresh" := "R1" ]}; csrf_token := false |}.

Definition with_sliding_cookie : Request :=
  {| data := ∅; data_mutable := true; COOKIES := {[ "jwt" := "S1" ]}; csrf_token := false |}.

Definition other_body : Request :=
  {| data := {[ "client" := "cli" ]}; data_mutable := true;
     COOKIES := {[ "jwt_refresh" := "R1" ]}; csrf_token := false |}.

Definition empty_cookie : Request :=
  {| data := ∅; data_mutable := true; COOKIES := {[ "jwt_refresh" := EmptyString ]}; csrf_token := false |}.

Definition verify_S1 : Request :=
  {| data := {[ "token" := "S1" ]}; data_mutable := true; COOKIES := ∅; csrf_token := false |}.

(** The same two refreshes sent form-encoded: the empty body is an
    immutable [QueryDict]. *)
Definition form_with_refresh_cookie : Request :=
  {| data := ∅; data_mutable := false;
     COOKIES := {[ "jwt_refresh" := "R1" ]}; csrf_token := false |}.

Definition form_with_sliding_cookie : Request :=
  {| data := ∅; data_mutable := false;
     COOKIES := {[ "jwt" := "S1" ]}; csrf_token := false |}.

Definition empty_sliding_cookie : Request :=
  {| data := ∅; data_mutable := true;
     COOKIES := {[ "jwt" := EmptyString ]}; csrf_token := false |}.

Definition verify_bad : Request :=
  {| data := {[ "token" := "bad" ]}; data_mutable := true; COOKIES := ∅; csrf_token := false |}.

End Sample.

(** ** Further vocabulary: variations of a request *)

(** The same request sent with another cookie jar. *)
Definition set_COOKIES (request : Request) (jar : gmap string string) : Request :=
  {| data := data request; data_mutable := data_mutable request;
     COOKIES := jar; csrf_token := csrf_token request |}.

(** The views whose [post] is [TokenRefreshViewBase.post]. *)
Definition is_refresh (v : View) : bool :=
  match v with
  | RefreshPair | RefreshSliding => true
  | _ => false
  end.

(** The one place where a view reads [request.COOKIES]: a refresh view,
    with [AUTH_COOKIE] set, on an empty body. *)
Definition reads_cookie_jar (v : View) (E : Env) (request : Request) : bool :=
  is_refresh v && cookie_transport E && bool_decide (data request = ∅).

(** The body field and the cookie of [extract_token_from_cookie], by view. *)
Definition token_field (v : View) : string :=
  match v with
  | RefreshSliding => "token"
  | _ => "refresh"
  end.

Definition token_cookie_name (v : View) (E : Env) : string :=
  match v with
  | RefreshSliding => AUTH_COOKIE (api_settings E)
  | _ => refresh_cookie_name E
  end.

(** ** Deployments with other serializers *)

Module Custom.

(** A serializer that accepts every body and answers with an access
    token only; one whose payload has neither [access] nor [token]; one
    that rejects every body with a validation error. *)
Definition lenient : Serializer := λ _, Ok {[ "access" := "A9" ]}.

Definition bare : Serializer := λ _, Ok ∅.

Definition strict : Serializer := λ _, Raise (OtherError "This field is required.").

(** The sample deployment with every serializer path resolved to
    [serializer], or to nothing. *)
Definition env_with (serializer : option Serializer) (rotate : bool) : Env :=
  {| api_settings := Sample.settings_of "jwt" rotate;
     datetime_now := 1000000000;
     datetime_fromtimestamp := λ t, t * 1000000;
     reverse := Sample.routes;
     RefreshToken := Sample.parse;
     import_string := λ _, serializer |}.

(** The token primitive's verification in the sample deployment. *)
Definition check (raw : string) : option string :=
  match Sample.parse raw with
  | Ok _ => None
  | Raise _ => Some "Token is invalid or expired"
  end.

Definition refresh_bad : Request :=
  {| data := {[ "refresh" := "bad" ]}; data_mutable := true; COOKIES := ∅; csrf_token := false |}.

End Custom.

(** * Properties *)

(** ** Running the monad *)

Lemma bind_run {A B : Type} (m : M A) (f : A → M B) (request : Request) :
  (m ≫= f) request =
  match m request with
  | Ok (a, request') => f a request'
  | Raise e => Raise e
  end.
Proof. reflexivity. Qed.

(** ** Cookie names *)

Lemma append_ne_self (s t : string) : t ≠ EmptyString → s ≠ s +:+ t.
Proof.
  intros Ht. induction s as [|a s IH].
  - intros H. apply Ht. symmetry. exact H.
  - intros H. apply IH.
    change (String a s +:+ t) with (String a (s +:+ t)) in H.
    by injection H.
Qed.

(** The access (or sliding) cookie and the refresh cookie never share a name. *)
Lemma refresh_cookie_name_ne (E : Env) :
  AUTH_COOKIE (api_settings E) ≠ refresh_cookie_name E.
Proof. apply append_ne_self. discriminate. Qed.

(** ** The single [post] funnel *)

Lemma post_resolve (v : View) (E : Env) (request : Request) :
  post v E request =
  match resolve v E request with
  | Ok request1 =>
      TokenViewBase.post E (_serializer_class v E) (set_auth_cookies v E) request1
  | Raise e => Raise e
  end.
Proof.
  destruct v; try reflexivity.
  - unfold post, TokenRefreshView.post, TokenRefreshViewBase.post, resolve.
    rewrite bind_run. destruct (cookie_transport E); [|reflexivity].
    rewrite bind_run. cbn.
    by destruct (TokenRefreshView.extract_token_from_cookie E request).
  - unfold post, TokenRefreshSlidingView.post, TokenRefreshViewBase.post, resolve.
    rewrite bind_run. destruct (cookie_transport E); [|reflexivity].
    rewrite bind_run. cbn.
    by destruct (TokenRefreshSlidingView.extract_token_from_cookie E request).
Qed.

Lemma TokenViewBase_post_run (E : Env) (cls : string)
    (self_set_auth_cookies : Response → Data → M Response)
    (serializer : Serializer) (request : Request) :
  TokenViewBase.get_serializer_class E cls = Ok serializer →
  TokenViewBase.post E cls self_set_auth_cookies request =
  match serializer (data request) with
  | Ok d =>
      if cookie_transport E
      then self_set_auth_cookies (mkResponse d HTTP_200_OK) d (with_csrf_token request)
      else Ok (mkResponse d HTTP_200_OK, request)
  | Raise (TokenError arg0) => Raise (InvalidToken arg0)
  | Raise e => Raise e
  end.
Proof.
  intros Hcls. unfold TokenViewBase.post.
  rewrite bind_run. unfold get_request. rewrite bind_run.
  unfold lift at 1. rewrite Hcls.
  rewrite bind_run. unfold TokenViewBase.is_valid.
  destruct (serializer (data request)) as [d|e].
  - cbn. destruct (cookie_transport E); reflexivity.
  - by destruct e.
Qed.

Lemma TokenViewBase_post_Ok_inv (E : Env) (cls : string)
    (self_set_auth_cookies : Response → Data → M Response)
    (request request' : Request) (response : Response) :
  TokenViewBase.post E cls self_set_auth_cookies request = Ok (response, request') →
  ∃ serializer d,
    TokenViewBase.get_serializer_class E cls = Ok serializer ∧
    serializer (data request) = Ok d ∧
    if cookie_transport E
    then self_set_auth_cookies (mkResponse d HTTP_200_OK) d (with_csrf_token request)
         = Ok (response, request')
    else response = mkResponse d HTTP_200_OK ∧ request' = request.
Proof.
  intros H.
  destruct (TokenViewBase.get_serializer_class E cls) as [serializer|e] eqn:Hcls.
  - rewrite (TokenViewBase_post_run _ _ _ serializer) in H by done.
    exists serializer. destruct (serializer (data request)) as [d|e] eqn:Hser.
    + exists d. split; [done|]. split; [done|].
      destruct (cookie_transport E); [done|]. by simplify_eq.
    + by destruct e.
  - unfold TokenViewBase.post in H. rewrite bind_run in H.
    unfold get_request in H. rewrite bind_run in H.
    unfold lift at 1 in H. by rewrite Hcls in H.
Qed.

(** Every response a view returns under cookie transport is the fresh
    [200] response of the validated data, passed through the view's
    [set_auth_cookies] after the CSRF token was issued. *)
Lemma post_cookie_inv (v : View) (E : Env) (request request' : Request)
    (response : Response) :
  cookie_transport E = true →
  post v E request = Ok (response, request') →
  ∃ request1 serializer d,
    resolve v E request = Ok request1 ∧
    TokenViewBase.get_serializer_class E (_serializer_class v E) = Ok serializer ∧
    serializer (data request1) = Ok d ∧
    set_auth_cookies v E (mkResponse d HTTP_200_OK) d (with_csrf_token request1)
    = Ok (response, request').
Proof.
  intros Hc H. rewrite post_resolve in H.
  destruct (resolve v E request) as [request1|e]; [|discriminate].
  apply TokenViewBase_post_Ok_inv in H as (serializer & d & Hcls & Hser & H).
  rewrite Hc in H. by exists request1, serializer, d.
Qed.

(** ** Cookie delivery of the pair views *)

Lemma pair_set_auth_cookies_run (E : Env) (self_expiration : M datetime)
    (response : Response) (d : Data) (request : Request) :
  TokenCookieViewMixin.set_auth_cookies E self_expiration response d request =
  match self_expiration request with
  | Raise e => Raise e
  | Ok (expires, request1) =>
      match d !! "access" with
      | None => Raise (KeyError "access")
      | Some access =>
          let s := api_settings E in
          let response1 :=
            set_cookie response (AUTH_COOKIE s)
              {| value := access; expires := expires;
                 domain := AUTH_COOKIE_DOMAIN s; path := AUTH_COOKIE_PATH s;
                 secure := or_None (AUTH_COOKIE_SECURE s); httponly := true;
                 samesite := AUTH_COOKIE_SAMESITE s |} in
          Ok (match d !! "refresh" with
              | Some refresh =>
                  set_cookie response1 (refresh_cookie_name E)
                    {| value := refresh; expires := expires;
                       domain := AUTH_COOKIE_DOMAIN s;
                       path := reverse E TokenCookieViewMixin.token_refresh_view_name;
                       secure := or_None (AUTH_COOKIE_SECURE s); httponly := true;
                       samesite := AUTH_COOKIE_SAMESITE s |}
              | None => response1
              end, request1)
      end
  end.
Proof.
  unfold TokenCookieViewMixin.set_auth_cookies. rewrite bind_run.
  destruct (self_expiration request) as [[expires request1]|e]; [|reflexivity].
  rewrite bind_run. unfold lift, getitem.
  destruct (d !! "access") as [access|]; [|reflexivity].
  by destruct (d !! "refresh").
Qed.

Lemma is_pair_set_auth_cookies (v : View) (E : Env) :
  is_pair v = true →
  set_auth_cookies v E =
  TokenCookieViewMixin.set_auth_cookies E (get_refresh_token_expiration v E).
Proof. by destruct v. Qed.

(** The expiration of the obtain view always exists; that of the refresh
    view follows the rotation flag.  Neither touches the request. *)
Lemma obtain_expiration_run (E : Env) (request : Request) :
  TokenObtainPairView.get_refresh_token_expiration E request =
  Ok (datetime_now E + REFRESH_TOKEN_LIFETIME (api_settings E), request).
Proof. reflexivity. Qed.

Lemma refresh_expiration_run (E : Env) (request : Request) :
  TokenRefreshView.get_refresh_token_expiration E request =
  if ROTATE_REFRESH_TOKENS (api_settings E) then
    Ok (datetime_now E + REFRESH_TOKEN_LIFETIME (api_settings E), request)
  else
    match data request !! "refresh" with
    | None => Raise (KeyError "refresh")
    | Some raw =>
        match RefreshToken E raw with
        | Raise e => Raise e
        | Ok payload =>
            match payload !! "exp" with
            | None => Raise (KeyError "exp")
            | Some exp => Ok (datetime_fromtimestamp E exp, request)
            end
        end
    end.
Proof.
  unfold TokenRefreshView.get_refresh_token_expiration.
  destruct (ROTATE_REFRESH_TOKENS (api_settings E)); [reflexivity|].
  rewrite bind_run. unfold get_request. rewrite bind_run. unfold lift, getitem.
  destruct (data request !! "refresh") as [raw|]; [|reflexivity].
  rewrite bind_run. destruct (RefreshToken E raw) as [payload|e]; [|reflexivity].
  rewrite bind_run. by destruct (payload !! "exp").
Qed.

Lemma expiration_keeps_request (v : View) (E : Env) (request request' : Request)
    (expires : datetime) :
  get_refresh_token_expiration v E request = Ok (expires, request') →
  request' = request.
Proof.
  destruct v; try discriminate; cbn [get_refresh_token_expiration].
  - rewrite obtain_expiration_run. intros H. by simplify_eq.
  - rewrite refresh_expiration_run. intros H.
    repeat case_match; by simplify_eq.
Qed.

(** What a pair view returns under cookie transport. *)
Lemma pair_post_inv (v : View) (E : Env) (request request' : Request)
    (response : Response) :
  is_pair v = true →
  cookie_transport E = true →
  post v E request = Ok (response, request') →
  ∃ request1 expiry access,
    resolve v E request = Ok request1 ∧
    request' = with_csrf_token request1 ∧
    get_refresh_token_expiration v E request' = Ok (expiry, request') ∧
    resp_data response !! "access" = Some access ∧
    status_code response = HTTP_200_OK ∧
    cookies response =
      match resp_data response !! "refresh" with
      | Some refresh =>
          <[refresh_cookie_name E := SetCookie (pair_refresh_cookie E refresh expiry)]>
            {[ AUTH_COOKIE (api_settings E) :=
                 SetCookie (pair_access_cookie E access expiry) ]}
      | None =>
          {[ AUTH_COOKIE (api_settings E) :=
               SetCookie (pair_access_cookie E access expiry) ]}
      end.
Proof.
  intros Hv Hc H.
  apply post_cookie_inv in H as (request1 & serializer & d & Hres & _ & _ & H); [|done].
  rewrite is_pair_set_auth_cookies, pair_set_auth_cookies_run in H by done.
  destruct (get_refresh_token_expiration v E (with_csrf_token request1))
    as [[expiry request2]|e] eqn:Hexp; [|discriminate].
  pose proof (expiration_keeps_request _ _ _ _ _ Hexp) as ->.
  destruct (d !! "access") as [access|] eqn:Ha; [|discriminate].
  exists request1, expiry, access. cbv zeta in H.
  destruct (d !! "refresh") as [refresh|] eqn:Hr; injection H as <- <-;
    cbn [set_cookie mkResponse resp_data status_code cookies];
    rewrite Hr, insert_empty; done.
Qed.

(** ** C1: rotation policy of the refresh cookie *)

(** C1.  A refresh request handled under cookie transport that returns a
    response with a refresh cookie: when [ROTATE_REFRESH_TOKENS] is true the
    cookie expires at [now + REFRESH_TOKEN_LIFETIME]; when it is false the
    cookie expires exactly at the [exp] claim of the refresh token found
    in the request body (the body the view works on, after the transport
    was resolved) and parsed again, with nothing added. *)
Theorem C1_refresh_cookie_expiration (E : Env) (request request' : Request)
    (response : Response) (c : Cookie) :
  cookie_transport E = true →
  post RefreshPair E request = Ok (response, request') →
  cookies response !! refresh_cookie_name E = Some (SetCookie c) →
  ∃ request1,
    resolve RefreshPair E request = Ok request1 ∧
    if ROTATE_REFRESH_TOKENS (api_settings E) then
      expires c = datetime_now E + REFRESH_TOKEN_LIFETIME (api_settings E)
    else
      ∃ raw payload exp,
        data request1 !! "refresh" = Some raw ∧
        RefreshToken E raw = Ok payload ∧
        payload !! "exp" = Some exp ∧
        expires c = datetime_fromtimestamp E exp.
Proof.
  intros Hc H Hcookie.
  apply pair_post_inv in H
    as (request1 & expiry & access & Hres & -> & Hexp & Ha & _ & Hcookies); [|done..].
  exists request1. split; [done|].
  assert (expires c = expiry) as ->.
  { rewrite Hcookies in Hcookie.
    destruct (resp_data response !! "refresh") as [refresh|].
    - rewrite lookup_insert_eq in Hcookie. by simplify_eq.
    - rewrite lookup_singleton_ne in Hcookie by apply refresh_cookie_name_ne.
      discriminate. }
  cbn [get_refresh_token_expiration] in Hexp.
  rewrite refresh_expiration_run in Hexp.
  destruct (ROTATE_REFRESH_TOKENS (api_settings E)); [by simplify_eq|].
  cbn [with_csrf_token data] in Hexp.
  destruct (data request1 !! "refresh") as [raw|]; [|discriminate].
  destruct (RefreshToken E raw) as [payload|e] eqn:Hparse; [|discriminate].
  destruct (payload !! "exp") as [exp|] eqn:Hexpclaim; [|discriminate].
  exists raw, payload, exp. by simplify_eq.
Qed.

(** In the sample deployment a refresh from the cookie alone sets a
    refresh cookie: without rotation it expires at the [exp] of [R1]
    (timestamp 5000), with rotation at [now + REFRESH_TOKEN_LIFETIME]. *)
Lemma C1_refresh_cookie_expiration_witness :
  (let E := Sample.env false in
   let c := pair_refresh_cookie E "R1" 5000000000 in
   ∃ request1,
     resolve RefreshPair E Sample.with_refresh_cookie = Ok request1 ∧
     ∃ raw payload exp,
       data request1 !! "refresh" = Some raw ∧
       RefreshToken E raw = Ok payload ∧
       payload !! "exp" = Some exp ∧
       expires c = datetime_fromtimestamp E exp) ∧
  (let E := Sample.env true in
   let c := pair_refresh_cookie E "R2" 87400000000 in
   ∃ request1,
     resolve RefreshPair E Sample.with_refresh_cookie = Ok request1 ∧
     expires c = datetime_now E + REFRESH_TOKEN_LIFETIME (api_settings E)).
Proof.
  split; intros E c.
  - apply (C1_refresh_cookie_expiration E Sample.with_refresh_cookie
             (with_csrf_token
                (set_data Sample.with_refresh_cookie {[ "refresh" := "R1" ]}))
             (set_cookie
                (set_cookie
                   (mkResponse {[ "access" := "A2"; "refresh" := "R1" ]} HTTP_200_OK)
                   "jwt" (pair_access_cookie E "A2" 5000000000))
                "jwt_refresh" c)
             c); vm_compute; reflexivity.
  - apply (C1_refresh_cookie_expiration E Sample.with_refresh_cookie
             (with_csrf_token
                (set_data Sample.with_refresh_cookie {[ "refresh" := "R1" ]}))
             (set_cookie
                (set_cookie
                   (mkResponse {[ "access" := "A2"; "refresh" := "R2" ]} HTTP_200_OK)
                   "jwt" (pair_access_cookie E "A2" 87400000000))
                "jwt_refresh" c)
             c); vm_compute; reflexivity.
Defined.

(** ** Cookie delivery of the sliding views and of verify and blacklist *)

Lemma sliding_set_auth_cookies_run (E : Env) (response : Response) (d : Data)
    (request : Request) :
  SlidingTokenCookieViewMixin.set_auth_cookies E response d request =
  match d !! "token" with
  | None => Raise (KeyError "token")
  | Some token =>
      Ok (set_cookie response (AUTH_COOKIE (api_settings E)) (sliding_cookie E token),
          request)
  end.
Proof.
  unfold SlidingTokenCookieViewMixin.set_auth_cookies. rewrite bind_run.
  unfold lift, getitem. by destruct (d !! "token").
Qed.

Lemma is_sliding_set_auth_cookies (v : View) (E : Env) :
  is_sliding v = true →
  set_auth_cookies v E = SlidingTokenCookieViewMixin.set_auth_cookies E.
Proof. by destruct v. Qed.

(** What a sliding view returns under cookie transport. *)
Lemma sliding_post_inv (v : View) (E : Env) (request request' : Request)
    (response : Response) :
  is_sliding v = true →
  cookie_transport E = true →
  post v E request = Ok (response, request') →
  ∃ request1 token,
    resolve v E request = Ok request1 ∧
    request' = with_csrf_token request1 ∧
    resp_data response !! "token" = Some token ∧
    status_code response = HTTP_200_OK ∧
    cookies response =
      {[ AUTH_COOKIE (api_settings E) := SetCookie (sliding_cookie E token) ]}.
Proof.
  intros Hv Hc H.
  apply post_cookie_inv in H as (request1 & serializer & d & Hres & _ & _ & H); [|done].
  rewrite is_sliding_set_auth_cookies, sliding_set_auth_cookies_run in H by done.
  destruct (d !! "token") as [token|] eqn:Ht; [|discriminate].
  exists request1, token. injection H as <- <-.
  cbn [set_cookie mkResponse resp_data status_code cookies].
  by rewrite insert_empty.
Qed.

(** Verify and blacklist never put a cookie on the response. *)
Lemma plain_post_inv (v : View) (E : Env) (request request' : Request)
    (response : Response) :
  is_pair v = false →
  is_sliding v = false →
  post v E request = Ok (response, request') →
  status_code response = HTTP_200_OK ∧ cookies response = ∅.
Proof.
  intros Hp Hs H. rewrite post_resolve in H.
  destruct (resolve v E request) as [request1|e]; [|discriminate].
  apply TokenViewBase_post_Ok_inv in H as (serializer & d & _ & _ & H).
  destruct (cookie_transport E).
  - destruct v; try discriminate; by injection H as <- <-.
  - by destruct H as [-> _].
Qed.

(** ** C10: one expiration for both cookies of a pair response *)

(** C10.  Every response of a pair view under cookie transport carries
    the access cookie, and the access cookie and the refresh cookie (when
    the response sets one) expire at the same instant: the value of the
    single call of [get_refresh_token_expiration], which is
    [now + REFRESH_TOKEN_LIFETIME] at obtain.  The cookie delivery does
    not read [ACCESS_TOKEN_LIFETIME]: under any other value of that
    setting it writes the same cookies. *)
Theorem C10_pair_cookies_share_expiration (v : View) (E : Env)
    (request request' : Request) (response : Response) :
  is_pair v = true →
  cookie_transport E = true →
  post v E request = Ok (response, request') →
  ∃ expiry ca,
    get_refresh_token_expiration v E request' = Ok (expiry, request') ∧
    (v = ObtainPair →
     expiry = datetime_now E + REFRESH_TOKEN_LIFETIME (api_settings E)) ∧
    cookies response !! AUTH_COOKIE (api_settings E) = Some (SetCookie ca) ∧
    expires ca = expiry ∧
    (∀ cr, cookies response !! refresh_cookie_name E = Some (SetCookie cr) →
           expires cr = expires ca) ∧
    (∀ lifetime response0 d,
       set_auth_cookies v (set_ACCESS_TOKEN_LIFETIME E lifetime) response0 d request'
       = set_auth_cookies v E response0 d request').
Proof.
  intros Hv Hc H.
  apply pair_post_inv in H
    as (request1 & expiry & access & Hres & -> & Hexp & Ha & _ & Hcookies); [|done..].
  exists expiry, (pair_access_cookie E access expiry).
  split; [done|]. split.
  { intros ->. cbn [get_refresh_token_expiration] in Hexp.
    rewrite obtain_expiration_run in Hexp. by simplify_eq. }
  split.
  { rewrite Hcookies. destruct (resp_data response !! "refresh").
    - rewrite lookup_insert_ne by (symmetry; apply refresh_cookie_name_ne).
      apply lookup_singleton_eq.
    - apply lookup_singleton_eq. }
  split; [done|]. split.
  { intros cr Hcr. rewrite Hcookies in Hcr.
    destruct (resp_data response !! "refresh").
    - rewrite lookup_insert_eq in Hcr. by simplify_eq.
    - rewrite lookup_singleton_ne in Hcr by apply refresh_cookie_name_ne.
      discriminate. }
  intros lifetime response0 d. by destruct v.
Qed.

(** Obtaining a pair in the sample deployment sets both cookies, both
    expiring at [now + REFRESH_TOKEN_LIFETIME] = 87400000000. *)
Lemma C10_pair_cookies_share_expiration_witness :
  let E := Sample.env false in
  let response :=
    set_cookie
      (set_cookie
         (mkResponse {[ "access" := "A1"; "refresh" := "R1" ]} HTTP_200_OK)
         "jwt" (pair_access_cookie E "A1" 87400000000))
      "jwt_refresh" (pair_refresh_cookie E "R1" 87400000000) in
  let request' := with_csrf_token Sample.login in
  ∃ expiry ca,
    get_refresh_token_expiration ObtainPair E request' = Ok (expiry, request') ∧
    (ObtainPair = ObtainPair →
     expiry = datetime_now E + REFRESH_TOKEN_LIFETIME (api_settings E)) ∧
    cookies response !! AUTH_COOKIE (api_settings E) = Some (SetCookie ca) ∧
    expires ca = expiry ∧
    (∀ cr, cookies response !! refresh_cookie_name E = Some (SetCookie cr) →
           expires cr = expires ca) ∧
    (∀ lifetime response0 d,
       set_auth_cookies ObtainPair (set_ACCESS_TOKEN_LIFETIME E lifetime)
         response0 d request'
       = set_auth_cookies ObtainPair E response0 d request').
Proof.
  intros E response request'.
  apply (C10_pair_cookies_share_expiration ObtainPair E Sample.login request' response);
    vm_compute; reflexivity.
Defined.

(** ** C6: the paths of the two cookies *)

(** C6.  Every response of a pair view under cookie transport carries
    the access cookie on the configured path [AUTH_COOKIE_PATH], and a
    refresh cookie in it is on the route of the refresh endpoint,
    [reverse('token_refresh')]: each path comes from its own source.
    Whenever the configured path is a prefix of that route, as the API
    root is, the refresh cookie's scope lies inside the access cookie's. *)
Theorem C6_cookie_paths (v : View) (E : Env) (request request' : Request)
    (response : Response) :
  is_pair v = true →
  cookie_transport E = true →
  post v E request = Ok (response, request') →
  ∃ ca,
    cookies response !! AUTH_COOKIE (api_settings E) = Some (SetCookie ca) ∧
    path ca = AUTH_COOKIE_PATH (api_settings E) ∧
    ∀ dir, cookies response !! refresh_cookie_name E = Some dir →
      ∃ cr, dir = SetCookie cr ∧
            path cr = reverse E TokenCookieViewMixin.token_refresh_view_name ∧
            (String.prefix (AUTH_COOKIE_PATH (api_settings E))
               (reverse E TokenCookieViewMixin.token_refresh_view_name) = true →
             String.prefix (path ca) (path cr) = true).
Proof.
  intros Hv Hc H.
  apply pair_post_inv in H
    as (request1 & expiry & access & _ & _ & _ & _ & _ & Hcookies); [|done..].
  exists (pair_access_cookie E access expiry). rewrite Hcookies.
  destruct (resp_data response !! "refresh") as [refresh|].
  - split.
    { rewrite lookup_insert_ne by (symmetry; apply refresh_cookie_name_ne).
      apply lookup_singleton_eq. }
    split; [done|]. intros dir Hdir.
    rewrite lookup_insert_eq in Hdir. injection Hdir as <-.
    by exists (pair_refresh_cookie E refresh expiry).
  - split; [apply lookup_singleton_eq|]. split; [done|]. intros dir Hdir.
    rewrite lookup_singleton_ne in Hdir by apply refresh_cookie_name_ne.
    discriminate.
Qed.

(** Obtaining a pair in the sample deployment: the access cookie is on
    ["/"], the refresh cookie on ["/api/token/refresh/"]. *)
Lemma C6_cookie_paths_witness :
  let E := Sample.env false in
  let response :=
    set_cookie
      (set_cookie
         (mkResponse {[ "access" := "A1"; "refresh" := "R1" ]} HTTP_200_OK)
         "jwt" (pair_access_cookie E "A1" 87400000000))
      "jwt_refresh" (pair_refresh_cookie E "R1" 87400000000) in
  ∃ ca,
    cookies response !! "jwt" = Some (SetCookie ca) ∧
    path ca = "/" ∧
    ∀ dir, cookies response !! "jwt_refresh" = Some dir →
      ∃ cr, dir = SetCookie cr ∧
            path cr = "/api/token/refresh/" ∧
            (String.prefix "/" "/api/token/refresh/" = true →
             String.prefix (path ca) (path cr) = true).
Proof.
  intros E response.
  apply (C6_cookie_paths ObtainPair E Sample.login
           (with_csrf_token Sample.login) response);
    vm_compute; reflexivity.
Defined.

(** ** Where the refresh views take the token from *)

Lemma pair_extract_nonempty (E : Env) (request : Request) :
  data request ≠ ∅ →
  TokenCookieViewMixin.extract_token_from_cookie E request = Ok request.
Proof.
  intros Hne. unfold TokenCookieViewMixin.extract_token_from_cookie.
  by rewrite bool_decide_eq_false_2.
Qed.

Lemma sliding_extract_nonempty (E : Env) (request : Request) :
  data request ≠ ∅ →
  SlidingTokenCookieViewMixin.extract_token_from_cookie E request = Ok request.
Proof.
  intros Hne. unfold SlidingTokenCookieViewMixin.extract_token_from_cookie.
  by rewrite bool_decide_eq_false_2.
Qed.

Lemma setitem_empty (request : Request) (key value : string) :
  data request = ∅ →
  setitem request key value =
  if data_mutable request
  then Ok (set_data request {[ key := value ]})
  else Raise (AttributeError "This QueryDict instance is immutable").
Proof. intros Hempty. unfold setitem. by rewrite Hempty, insert_empty. Qed.

Lemma pair_extract_empty (E : Env) (request : Request) :
  data request = ∅ →
  TokenCookieViewMixin.extract_token_from_cookie E request =
  match COOKIES request !! refresh_cookie_name E with
  | Some token =>
      if py_bool token then
        if data_mutable request
        then Ok (set_data request {[ "refresh" := token ]})
        else Raise (AttributeError "This QueryDict instance is immutable")
      else Raise (NotAuthenticated refresh_cookie_not_set)
  | None => Raise (NotAuthenticated refresh_cookie_not_set)
  end.
Proof.
  intros Hempty. unfold TokenCookieViewMixin.extract_token_from_cookie.
  rewrite bool_decide_eq_true_2 by done.
  destruct (COOKIES request !! refresh_cookie_name E) as [token|]; [|done].
  by rewrite setitem_empty.
Qed.

Lemma sliding_extract_empty (E : Env) (request : Request) :
  data request = ∅ →
  SlidingTokenCookieViewMixin.extract_token_from_cookie E request =
  match COOKIES request !! AUTH_COOKIE (api_settings E) with
  | Some token =>
      if py_bool token then
        if data_mutable request
        then Ok (set_data request {[ "token" := token ]})
        else Raise (AttributeError "This QueryDict instance is immutable")
      else Raise (NotAuthenticated refresh_cookie_not_set)
  | None => Raise (NotAuthenticated refresh_cookie_not_set)
  end.
Proof.
  intros Hempty. unfold SlidingTokenCookieViewMixin.extract_token_from_cookie.
  rewrite bool_decide_eq_true_2 by done.
  destruct (COOKIES request !! AUTH_COOKIE (api_settings E)) as [token|]; [|done].
  by rewrite setitem_empty.
Qed.

Lemma py_bool_true (s : string) : s ≠ EmptyString → py_bool s = true.
Proof. by destruct s. Qed.

Lemma lookup_Some_nonempty {V : Type} (d : gmap string V) (key : string) :
  is_Some (d !! key) → d ≠ ∅.
Proof. intros [x Hx] ->. by rewrite lookup_empty in Hx. Qed.

(** ** C7: attributes and presence of the cookies *)




(** ** C8: the sliding cookie *)

(** C8 as stated does not hold.  A sliding refresh sent form-encoded with
    an empty body and the cookie [jwt=S1]: the token is read from the
    cookie but not injected, the assignment to the immutable body raises
    [AttributeError].  And a sliding refresh whose cookie [jwt] is there
    with an empty value is refused as not authenticated. *)
Lemma C8_counterexample :
  let E := Sample.env true in
  cookie_transport E = true ∧
  data Sample.form_with_sliding_cookie = ∅ ∧
  COOKIES Sample.form_with_sliding_cookie !! AUTH_COOKIE (api_settings E)
  = Some "S1" ∧
  post RefreshSliding E Sample.form_with_sliding_cookie
  = Raise (AttributeError "This QueryDict instance is immutable") ∧
  COOKIES Sample.empty_sliding_cookie !! AUTH_COOKIE (api_settings E)
  = Some EmptyString ∧
  post RefreshSliding E Sample.empty_sliding_cookie
  = Raise (NotAuthenticated "Refresh cookie not set. Try to authenticate first.").
Proof. repeat split; vm_compute; reflexivity. Qed.

(** C8, amended.  Under cookie transport, (1) a sliding refresh with an
    empty body that accepts assignment (a JSON request) takes the
    non-empty value of the cookie named [AUTH_COOKIE] itself, without
    suffix, and puts it in the body under ['token'], and a sliding
    refresh with an empty body is refused when that cookie is missing,
    whatever else the jar holds; (2) every response of a sliding view
    carries exactly one cookie, named [AUTH_COOKIE], holding the
    payload's token and expiring at [now + REFRESH_TOKEN_LIFETIME], for
    either value of [ROTATE_REFRESH_TOKENS], which the delivery does not
    read; (3) the delivery succeeds whenever the payload has a token. *)
Theorem C8_sliding_cookie_amended (v : View) (E : Env) :
  is_sliding v = true →
  cookie_transport E = true →
  (∀ request token,
     data request = ∅ →
     data_mutable request = true →
     COOKIES request !! AUTH_COOKIE (api_settings E) = Some token →
     token ≠ EmptyString →
     resolve RefreshSliding E request
     = Ok (set_data request {[ "token" := token ]})) ∧
  (∀ request,
     data request = ∅ →
     COOKIES request !! AUTH_COOKIE (api_settings E) = None →
     resolve RefreshSliding E request
     = Raise (NotAuthenticated refresh_cookie_not_set)) ∧
  (∀ request request' response,
     post v E request = Ok (response, request') →
     ∃ c, cookies response = {[ AUTH_COOKIE (api_settings E) := SetCookie c ]} ∧
          resp_data response !! "token" = Some (value c) ∧
          expires c = datetime_now E + REFRESH_TOKEN_LIFETIME (api_settings E)) ∧
  (∀ request d token,
     d !! "token" = Some token →
     ∃ response,
       set_auth_cookies v E (mkResponse d HTTP_200_OK) d request
       = Ok (response, request) ∧
       cookies response
       = {[ AUTH_COOKIE (api_settings E) := SetCookie (sliding_cookie E token) ]}).
Proof.
  intros Hv Hc. repeat split.
  - intros request token Hempty Hmutable Hcookie Htoken.
    unfold resolve. rewrite Hc.
    unfold TokenRefreshSlidingView.extract_token_from_cookie.
    by rewrite sliding_extract_empty, Hcookie, py_bool_true, Hmutable.
  - intros request Hempty Hcookie.
    unfold resolve. rewrite Hc.
    unfold TokenRefreshSlidingView.extract_token_from_cookie.
    by rewrite sliding_extract_empty, Hcookie.
  - intros request request' response H.
    apply sliding_post_inv in H
      as (request1 & token & _ & _ & Ht & _ & Hcookies); [|done..].
    by exists (sliding_cookie E token).
  - intros request d token Ht.
    rewrite is_sliding_set_auth_cookies, sliding_set_auth_cookies_run, Ht by done.
    eexists. split; [reflexivity|].
    cbn [set_cookie mkResponse cookies]. by rewrite insert_empty.
Qed.

(** A sliding refresh from the cookie [jwt] in the sample deployment. *)
Lemma C8_sliding_cookie_amended_witness :
  let E := Sample.env true in
  let d : Data := {[ "token" := "S2" ]} in
  resolve RefreshSliding E Sample.with_sliding_cookie
  = Ok (set_data Sample.with_sliding_cookie {[ "token" := "S1" ]}) ∧
  (∃ c, cookies (set_cookie (mkResponse d HTTP_200_OK) "jwt" (sliding_cookie E "S2"))
        = {[ "jwt" := SetCookie c ]} ∧
        d !! "token" = Some (value c) ∧
        expires c = 87400000000) ∧
  (∃ response,
     set_auth_cookies RefreshSliding E (mkResponse d HTTP_200_OK) d
       Sample.with_sliding_cookie
     = Ok (response, Sample.with_sliding_cookie) ∧
     cookies response = {[ "jwt" := SetCookie (sliding_cookie E "S2") ]}).
Proof.
  intros E d.
  destruct (C8_sliding_cookie_amended RefreshSliding E eq_refl eq_refl)
    as (Hread & _ & Hpost & Hdeliver).
  split; [|split].
  - apply (Hread Sample.with_sliding_cookie "S1"); vm_compute; [reflexivity..|].
    discriminate.
  - apply (Hpost Sample.with_sliding_cookie
             (with_csrf_token
                (set_data Sample.with_sliding_cookie {[ "token" := "S1" ]}))
             (set_cookie (mkResponse d HTTP_200_OK) "jwt" (sliding_cookie E "S2"))).
    vm_compute; reflexivity.
  - apply (Hdeliver Sample.with_sliding_cookie d "S2"). vm_compute; reflexivity.
Defined.

(** ** C2: body before cookie *)

(** C2 as stated does not hold: a body that lacks ['refresh'] but is
    not empty is handed on as it is, although the refresh cookie is
    there; nothing is looked up and nothing is injected. *)
Lemma C2_counterexample :
  let E := Sample.env false in
  cookie_transport E = true ∧
  data Sample.other_body !! "refresh" = None ∧
  COOKIES Sample.other_body !! refresh_cookie_name E = Some "R1" ∧
  resolve RefreshPair E Sample.other_body = Ok Sample.other_body ∧
  ¬ ∃ request',
      resolve RefreshPair E Sample.other_body = Ok request' ∧
      data request' !! "refresh" = Some "R1".
Proof.
  repeat split; try (vm_compute; reflexivity).
  intros (request' & Hres & Hdata).
  vm_compute in Hres. injection Hres as <-.
  vm_compute in Hdata. discriminate.
Qed.

(** C2, amended.  Under cookie transport, a body that carries a value for
    the token field (['refresh'] for the pair, ['token'] for the sliding
    token) is handed on unchanged; an EMPTY body that accepts assignment
    (a JSON request) makes the view look up the cookie
    ([AUTH_COOKIE + '_refresh'] for the pair, [AUTH_COOKIE] for the
    sliding token) and, when that cookie holds a non-empty value, put the
    value in the body under the field name. *)
Theorem C2_extraction_amended (E : Env) (request : Request) :
  cookie_transport E = true →
  ((is_Some (data request !! "refresh") →
    resolve RefreshPair E request = Ok request) ∧
   (∀ token,
      data request = ∅ →
      data_mutable request = true →
      COOKIES request !! refresh_cookie_name E = Some token →
      token ≠ EmptyString →
      resolve RefreshPair E request
      = Ok (set_data request {[ "refresh" := token ]}))) ∧
  ((is_Some (data request !! "token") →
    resolve RefreshSliding E request = Ok request) ∧
   (∀ token,
      data request = ∅ →
      data_mutable request = true →
      COOKIES request !! AUTH_COOKIE (api_settings E) = Some token →
      token ≠ EmptyString →
      resolve RefreshSliding E request
      = Ok (set_data request {[ "token" := token ]}))).
Proof.
  intros Hc. unfold resolve. rewrite Hc.
  unfold TokenRefreshView.extract_token_from_cookie,
    TokenRefreshSlidingView.extract_token_from_cookie.
  repeat split.
  - intros Hfield. by eapply pair_extract_nonempty, lookup_Some_nonempty.
  - intros token Hempty Hmutable Hcookie Htoken.
    by rewrite pair_extract_empty, Hcookie, py_bool_true, Hmutable.
  - intros Hfield. by eapply sliding_extract_nonempty, lookup_Some_nonempty.
  - intros token Hempty Hmutable Hcookie Htoken.
    by rewrite sliding_extract_empty, Hcookie, py_bool_true, Hmutable.
Qed.

(** Sample: a body with ['refresh'] goes through unchanged; an empty JSON
    body takes [R1] from the cookie [jwt_refresh], or [S1] from the
    cookie [jwt]. *)
Lemma C2_extraction_amended_witness :
  let E := Sample.env false in
  let request :=
    {| data := {[ "refresh" := "R1" ]}; data_mutable := true;
       COOKIES := ∅; csrf_token := false |} in
  resolve RefreshPair E request = Ok request ∧
  resolve RefreshPair E Sample.with_refresh_cookie
  = Ok (set_data Sample.with_refresh_cookie {[ "refresh" := "R1" ]}) ∧
  resolve RefreshSliding E Sample.with_sliding_cookie
  = Ok (set_data Sample.with_sliding_cookie {[ "token" := "S1" ]}).
Proof.
  intros E request. split; [|split].
  - apply (proj1 (proj1 (C2_extraction_amended E request eq_refl))).
    vm_compute. eexists. reflexivity.
  - apply (proj2 (proj1
             (C2_extraction_amended E Sample.with_refresh_cookie eq_refl)) "R1");
      vm_compute; [reflexivity..|]. discriminate.
  - apply (proj2 (proj2
             (C2_extraction_amended E Sample.with_sliding_cookie eq_refl)) "S1");
      vm_compute; [reflexivity..|]. discriminate.
Defined.

(** ** C5: a refresh with an empty body *)

(** C5 as stated does not hold: the refresh cookie is present, with an
    empty value, and the refresh is refused instead of going on with the
    cookie's value in the body. *)
Lemma C5_counterexample :
  let E := Sample.env false in
  cookie_transport E = true ∧
  data Sample.empty_cookie = ∅ ∧
  COOKIES Sample.empty_cookie !! refresh_cookie_name E = Some EmptyString ∧
  post RefreshPair E Sample.empty_cookie
  = Raise (NotAuthenticated "Refresh cookie not set. Try to authenticate first.").
Proof. repeat split; vm_compute; reflexivity. Qed.

(** C5, amended.  A refresh under cookie transport with an empty body:
    when the expected cookie is absent, or present with an empty value,
    the view raises [NotAuthenticated] with the message "Refresh cookie
    not set. Try to authenticate first."; when the cookie holds a
    non-empty value and the body accepts assignment (a JSON request), the
    view goes on as the shared [post] run on the request whose body holds
    that value under the token field. *)
Theorem C5_empty_body_refresh_amended (E : Env) (request : Request) :
  cookie_transport E = true →
  data request = ∅ →
  ((COOKIES request !! refresh_cookie_name E = None ∨
    COOKIES request !! refresh_cookie_name E = Some EmptyString →
    post RefreshPair E request
    = Raise (NotAuthenticated "Refresh cookie not set. Try to authenticate first.")) ∧
   (∀ token,
      data_mutable request = true →
      COOKIES request !! refresh_cookie_name E = Some token →
      token ≠ EmptyString →
      post RefreshPair E request
      = TokenViewBase.post E (_serializer_class RefreshPair E)
          (set_auth_cookies RefreshPair E)
          (set_data request {[ "refresh" := token ]}))) ∧
  ((COOKIES request !! AUTH_COOKIE (api_settings E) = None ∨
    COOKIES request !! AUTH_COOKIE (api_settings E) = Some EmptyString →
    post RefreshSliding E request
    = Raise (NotAuthenticated "Refresh cookie not set. Try to authenticate first.")) ∧
   (∀ token,
      data_mutable request = true →
      COOKIES request !! AUTH_COOKIE (api_settings E) = Some token →
      token ≠ EmptyString →
      post RefreshSliding E request
      = TokenViewBase.post E (_serializer_class RefreshSliding E)
          (set_auth_cookies RefreshSliding E)
          (set_data request {[ "token" := token ]}))).
Proof.
  intros Hc Hempty. rewrite !post_resolve. unfold resolve. rewrite Hc.
  unfold TokenRefreshView.extract_token_from_cookie,
    TokenRefreshSlidingView.extract_token_from_cookie.
  rewrite pair_extract_empty, sliding_extract_empty by done.
  repeat split.
  - by intros [-> | ->].
  - intros token -> -> Htoken. by rewrite py_bool_true.
  - by intros [-> | ->].
  - intros token -> -> Htoken. by rewrite py_bool_true.
Qed.

(** Sample: without any cookie the refresh is refused; with the cookie
    [jwt_refresh=R1] and an empty JSON body it goes on with the token in
    the body. *)
Lemma C5_empty_body_refresh_amended_witness :
  let E := Sample.env false in
  let no_cookie :=
    {| data := ∅; data_mutable := true; COOKIES := ∅; csrf_token := false |} in
  post RefreshPair E no_cookie
  = Raise (NotAuthenticated "Refresh cookie not set. Try to authenticate first.") ∧
  post RefreshPair E Sample.with_refresh_cookie
  = TokenViewBase.post E (_serializer_class RefreshPair E)
      (set_auth_cookies RefreshPair E)
      (set_data Sample.with_refresh_cookie {[ "refresh" := "R1" ]}).
Proof.
  intros E no_cookie. split.
  - apply (proj1 (proj1
             (C5_empty_body_refresh_amended E no_cookie eq_refl eq_refl))).
    left. vm_compute. reflexivity.
  - apply (proj2 (proj1
             (C5_empty_body_refresh_amended E Sample.with_refresh_cookie
                eq_refl eq_refl)) "R1").
    + reflexivity.
    + vm_compute. reflexivity.
    + discriminate.
Defined.

(** ** C4: the shared [post] contract *)

(** The delivery returns a response exactly when [delivery_defined], and
    it never changes the status, the payload or the request. *)
Lemma delivery_defined_Ok (v : View) (E : Env) (request : Request) (d : Data)
    (response0 : Response) :
  delivery_defined v E request d = true →
  ∃ response,
    set_auth_cookies v E response0 d request = Ok (response, request) ∧
    status_code response = status_code response0 ∧
    resp_data response = resp_data response0.
Proof.
  destruct v; cbn [delivery_defined set_auth_cookies]; unfold contains.
  - intros Ha. destruct (d !! "access") as [access|] eqn:Ha'; [|done].
    unfold TokenObtainPairView.set_auth_cookies.
    rewrite pair_set_auth_cookies_run, obtain_expiration_run, Ha'. cbv zeta.
    eexists. split; [reflexivity|]. by destruct (d !! "refresh").
  - intros [Ha Hexp]%andb_prop.
    destruct (d !! "access") as [access|] eqn:Ha'; [|done].
    unfold TokenRefreshView.set_auth_cookies.
    rewrite pair_set_auth_cookies_run, refresh_expiration_run.
    destruct (ROTATE_REFRESH_TOKENS (api_settings E)).
    + rewrite Ha'. cbv zeta. eexists. split; [reflexivity|].
      by destruct (d !! "refresh").
    + cbn [orb] in Hexp.
      destruct (data request !! "refresh") as [raw|]; [|done].
      destruct (RefreshToken E raw) as [payload|e]; [|done].
      destruct (payload !! "exp") as [exp|]; [|done].
      rewrite Ha'. cbv zeta. eexists. split; [reflexivity|].
      by destruct (d !! "refresh").
  - intros Ht. destruct (d !! "token") as [token|] eqn:Ht'; [|done].
    unfold TokenObtainSlidingView.set_auth_cookies.
    rewrite sliding_set_auth_cookies_run, Ht'. by eexists.
  - intros Ht. destruct (d !! "token") as [token|] eqn:Ht'; [|done].
    unfold TokenRefreshSlidingView.set_auth_cookies.
    rewrite sliding_set_auth_cookies_run, Ht'. by eexists.
  - intros _. by exists response0.
  - intros _. by exists response0.
Qed.

Lemma delivery_undefined_Raise (v : View) (E : Env) (request : Request) (d : Data)
    (response0 : Response) :
  delivery_defined v E request d = false →
  ∃ e, set_auth_cookies v E response0 d request = Raise e.
Proof.
  destruct v; cbn [delivery_defined set_auth_cookies]; unfold contains;
    try discriminate.
  - intros Ha. destruct (d !! "access") as [access|] eqn:Ha'; [done|].
    unfold TokenObtainPairView.set_auth_cookies.
    rewrite pair_set_auth_cookies_run, obtain_expiration_run, Ha'. by eexists.
  - intros Hd. unfold TokenRefreshView.set_auth_cookies.
    rewrite pair_set_auth_cookies_run, refresh_expiration_run.
    destruct (ROTATE_REFRESH_TOKENS (api_settings E)).
    + destruct (d !! "access") as [access|]; [done|]. by eexists.
    + cbn [orb] in Hd.
      destruct (data request !! "refresh") as [raw|]; [|by eexists].
      destruct (RefreshToken E raw) as [payload|e]; [|by eexists].
      destruct (payload !! "exp") as [exp|]; [|by eexists].
      destruct (d !! "access") as [access|]; [done|]. by eexists.
  - intros Ht. destruct (d !! "token") as [token|] eqn:Ht'; [done|].
    unfold TokenObtainSlidingView.set_auth_cookies.
    rewrite sliding_set_auth_cookies_run, Ht'. by eexists.
  - intros Ht. destruct (d !! "token") as [token|] eqn:Ht'; [done|].
    unfold TokenRefreshSlidingView.set_auth_cookies.
    rewrite sliding_set_auth_cookies_run, Ht'. by eexists.
Qed.

(** C4 as stated does not hold: under cookie transport the validation
    of these two requests succeeds and no [200] response comes back.  The
    login's payload has no access token and the cookie delivery raises
    [KeyError('access')]; the refresh's body token is rejected when the
    delivery parses it again, and the [TokenError] escapes. *)
Lemma C4_counterexample :
  (let E := Custom.env_with (Some Custom.bare) false in
   cookie_transport E = true ∧
   resolve ObtainPair E Sample.login = Ok Sample.login ∧
   TokenViewBase.get_serializer_class E (_serializer_class ObtainPair E)
   = Ok Custom.bare ∧
   Custom.bare (data Sample.login) = Ok ∅ ∧
   post ObtainPair E Sample.login = Raise (KeyError "access")) ∧
  (let E := Custom.env_with (Some Custom.lenient) false in
   cookie_transport E = true ∧
   resolve RefreshPair E Custom.refresh_bad = Ok Custom.refresh_bad ∧
   TokenViewBase.get_serializer_class E (_serializer_class RefreshPair E)
   = Ok Custom.lenient ∧
   Custom.lenient (data Custom.refresh_bad) = Ok {[ "access" := "A9" ]} ∧
   post RefreshPair E Custom.refresh_bad
   = Raise (TokenError "Token is invalid or expired")).
Proof. repeat split; vm_compute; reflexivity. Qed.

(** C4, amended.  A POST to a token view whose transport resolves to
    [request1] and whose serializer class is found: (1) if the validation
    raises [TokenError(arg0)], the view raises [InvalidToken(arg0)];
    (2) if the validation succeeds with payload [d] and [AUTH_COOKIE] is
    not set, the view returns the [200] response of [d] without any
    cookie and without issuing a CSRF token; (3) if it succeeds and
    [AUTH_COOKIE] is set, the view issues the CSRF token and then runs
    its cookie delivery on the [200] response of [d]: whatever the
    delivery raises, the view raises; every response the view returns
    is a [200] response with payload [d], and the verify and blacklist
    views always return it. *)
Theorem C4_post_contract_amended (v : View) (E : Env) (request request1 : Request)
    (serializer : Serializer) :
  resolve v E request = Ok request1 →
  TokenViewBase.get_serializer_class E (_serializer_class v E) = Ok serializer →
  (∀ arg0,
     serializer (data request1) = Raise (TokenError arg0) →
     post v E request = Raise (InvalidToken arg0)) ∧
  (∀ d,
     serializer (data request1) = Ok d →
     (cookie_transport E = false →
      post v E request = Ok (mkResponse d HTTP_200_OK, request) ∧
      cookies (mkResponse d HTTP_200_OK) = ∅) ∧
     (cookie_transport E = true →
      post v E request
      = set_auth_cookies v E (mkResponse d HTTP_200_OK) d (with_csrf_token request1) ∧
      (∀ response request',
         post v E request = Ok (response, request') →
         request' = with_csrf_token request1 ∧
         csrf_token request' = true ∧
         status_code response = HTTP_200_OK ∧
         resp_data response = d) ∧
      (is_pair v || is_sliding v = false →
       post v E request = Ok (mkResponse d HTTP_200_OK, with_csrf_token request1)))).
Proof.
  intros Hres Hcls. rewrite post_resolve, Hres.
  rewrite (TokenViewBase_post_run _ _ _ serializer) by done.
  split.
  - by intros arg0 ->.
  - intros d ->. split.
    + intros Hc. rewrite Hc. split; [|done].
      destruct v; cbn [resolve] in Hres; rewrite ?Hc in Hres; by simplify_eq.
    + intros Hc. rewrite Hc. split; [done|]. split.
      * intros response request' H.
        destruct (delivery_defined v E (with_csrf_token request1) d) eqn:Hd.
        -- destruct (delivery_defined_Ok _ _ _ _ (mkResponse d HTTP_200_OK) Hd)
             as (response1 & H1 & Hstatus & Hdata).
           rewrite H1 in H. by simplify_eq.
        -- destruct (delivery_undefined_Raise _ _ _ _ (mkResponse d HTTP_200_OK) Hd)
             as (e & H1).
           rewrite H1 in H. discriminate.
      * intros Hv. by destruct v.
Qed.

(** Sample: a refresh from the cookie returns [200] with the validated
    payload after the CSRF token was issued; a verify of a bad token
    raises [InvalidToken] with the token error's message; under body
    transport the login returns the bare [200] response. *)
Lemma C4_post_contract_amended_witness :
  (let E := Sample.env false in
   let d : Data := {[ "access" := "A2"; "refresh" := "R1" ]} in
   let request1 := set_data Sample.with_refresh_cookie {[ "refresh" := "R1" ]} in
   let response :=
     set_cookie
       (set_cookie (mkResponse d HTTP_200_OK)
          "jwt" (pair_access_cookie E "A2" 5000000000))
       "jwt_refresh" (pair_refresh_cookie E "R1" 5000000000) in
   with_csrf_token request1 = with_csrf_token request1 ∧
   csrf_token (with_csrf_token request1) = true ∧
   status_code response = HTTP_200_OK ∧
   resp_data response = d) ∧
  post Verify (Sample.env false) Sample.verify_bad
  = Raise (InvalidToken "Token is invalid or expired") ∧
  (let d : Data := {[ "access" := "A1"; "refresh" := "R1" ]} in
   post ObtainPair Sample.body_env Sample.login
   = Ok (mkResponse d HTTP_200_OK, Sample.login) ∧
   cookies (mkResponse d HTTP_200_OK) = ∅).
Proof.
  split; [|split].
  - intros E d request1 response.
    apply (proj1 (proj2 (proj2 (proj2
             (C4_post_contract_amended RefreshPair E Sample.with_refresh_cookie
                request1 (Sample.refresh_pair false) eq_refl eq_refl)
             d eq_refl) eq_refl)) response (with_csrf_token request1)).
    vm_compute; reflexivity.
  - apply (proj1 (C4_post_contract_amended Verify (Sample.env false)
                    Sample.verify_bad Sample.verify_bad Sample.verify
                    eq_refl eq_refl)).
    reflexivity.
  - intros d.
    apply (proj1 (proj2 (C4_post_contract_amended ObtainPair Sample.body_env
                           Sample.login Sample.login Sample.obtain_pair
                           eq_refl eq_refl)
                    d eq_refl) eq_refl).
Defined.

(** ** C9: verify and the response *)

(** C9 as stated does not hold.  Under cookie transport a verify is not
    free of side effects: the request comes back with the CSRF token
    issued, which it did not have.  And a verify can fail otherwise than
    with [InvalidToken]: a body without the token fails with the
    serializer's validation error. *)
Lemma C9_counterexample :
  let E := Sample.env false in
  let no_token :=
    {| data := ∅; data_mutable := true; COOKIES := ∅; csrf_token := false |} in
  cookie_transport E = true ∧
  csrf_token Sample.verify_S1 = false ∧
  (∃ response request',
     post Verify E Sample.verify_S1 = Ok (response, request') ∧
     csrf_token request' = true) ∧
  post Verify E no_token = Raise (OtherError "This field is required.").
Proof.
  repeat split; try (vm_compute; reflexivity).
  eexists _, _. split; vm_compute; reflexivity.
Qed.

(** C9, amended.  A verify whose serializer class is found.  (1) If the
    validation succeeds, the view returns the [200] response of the
    validated payload with no cookie on it: the cookie delivery hands
    the response back as it got it.  The request keeps its body and its
    cookie jar; under cookie transport the CSRF token is issued on it,
    as by every token view.  (2) If the validation raises a token error,
    the view raises [InvalidToken]; any other exception of the validation
    leaves the view as it is.  (3) With the verify serializer of the
    spec, a body whose token verifies gives the empty payload, and a body
    whose token does not verify gives [InvalidToken]. *)
Theorem C9_verify_frame_amended (E : Env) (request : Request)
    (serializer : Serializer) :
  TokenViewBase.get_serializer_class E (_serializer_class Verify E) = Ok serializer →
  (∀ d,
     serializer (data request) = Ok d →
     post Verify E request
     = Ok (mkResponse d HTTP_200_OK,
           if cookie_transport E then with_csrf_token request else request) ∧
     resp_data (mkResponse d HTTP_200_OK) = d ∧
     cookies (mkResponse d HTTP_200_OK) = ∅) ∧
  (∀ response request',
     post Verify E request = Ok (response, request') →
     cookies response = ∅ ∧
     data request' = data request ∧
     COOKIES request' = COOKIES request ∧
     csrf_token request' = cookie_transport E || csrf_token request) ∧
  (∀ arg0,
     serializer (data request) = Raise (TokenError arg0) →
     post Verify E request = Raise (InvalidToken arg0)) ∧
  (∀ e,
     serializer (data request) = Raise e →
     (∀ arg0, e ≠ TokenError arg0) →
     post Verify E request = Raise e) ∧
  (∀ check raw,
     serializer = TokenVerifySerializer check →
     data request !! "token" = Some raw →
     match check raw with
     | None =>
         post Verify E request
         = Ok (mkResponse ∅ HTTP_200_OK,
               if cookie_transport E then with_csrf_token request else request)
     | Some msg => post Verify E request = Raise (InvalidToken msg)
     end).
Proof.
  intros Hcls. cbn [post]. unfold TokenVerifyView.post.
  rewrite (TokenViewBase_post_run _ _ _ serializer) by done.
  split; [|split; [|split; [|split]]].
  - intros d ->. split; [|done]. by destruct (cookie_transport E).
  - intros response request'.
    destruct (serializer (data request)) as [d|e]; [|by destruct e].
    destruct (cookie_transport E); intros H; injection H as <- <-; done.
  - by intros arg0 ->.
  - intros e -> Hne. destruct e; try done. by destruct (Hne arg0).
  - intros check raw -> Hraw. unfold TokenVerifySerializer. rewrite Hraw.
    destruct (check raw) as [msg|]; [done|]. by destruct (cookie_transport E).
Qed.

(** With the verify serializer of the spec in the sample deployment:
    verifying [S1] returns the empty payload and no cookie, with the
    CSRF token issued; verifying a bad token raises [InvalidToken]. *)
Lemma C9_verify_frame_amended_witness :
  let E := Custom.env_with (Some (TokenVerifySerializer Custom.check)) false in
  post Verify E Sample.verify_S1
  = Ok (mkResponse ∅ HTTP_200_OK, with_csrf_token Sample.verify_S1) ∧
  post Verify E Sample.verify_bad
  = Raise (InvalidToken "Token is invalid or expired").
Proof.
  intros E. split.
  - apply (proj2 (proj2 (proj2 (proj2
             (C9_verify_frame_amended E Sample.verify_S1
                (TokenVerifySerializer Custom.check) eq_refl)))) Custom.check "S1");
      reflexivity.
  - apply (proj2 (proj2 (proj2 (proj2
             (C9_verify_frame_amended E Sample.verify_bad
                (TokenVerifySerializer Custom.check) eq_refl)))) Custom.check "bad");
      reflexivity.
Defined.

(** ** C3: logout *)

(** The two deletions of the logout view, for every deployment: the
    access cookie is cleared on the configured domain and path, the
    refresh cookie on the refresh route but on NO domain. *)
Lemma delete_auth_cookies_run (E : Env) (request : Request) :
  cookie_transport E = true →
  ∃ response,
    TokenCookieDeleteView.post E request = Ok (response, request) ∧
    cookies response !! AUTH_COOKIE (api_settings E)
    = Some (DeleteCookie (AUTH_COOKIE_DOMAIN (api_settings E))
              (AUTH_COOKIE_PATH (api_settings E))) ∧
    cookies response !! refresh_cookie_name E
    = Some (DeleteCookie None
              (reverse E TokenCookieDeleteView.token_refresh_view_name)).
Proof.
  intros Hc. unfold TokenCookieDeleteView.post. rewrite Hc.
  eexists. split; [reflexivity|].
  unfold TokenCookieDeleteView.delete_auth_cookies.
  cbn [delete_cookie mkResponse cookies]. split.
  - rewrite lookup_insert_ne by (symmetry; apply refresh_cookie_name_ne).
    apply lookup_insert_eq.
  - apply lookup_insert_eq.
Qed.

(** C3, at the failing input: with [AUTH_COOKIE_DOMAIN = 'example.com']
    the login issues both cookies on the domain [example.com]; the logout
    clears the access cookie on the domain and path it was issued with,
    but clears the refresh cookie with [domain=None], which is not the
    domain the refresh cookie was issued with. *)
Theorem C3_logout_refresh_domain_mismatch :
  let E := Sample.env false in
  ∃ issued request' cleared ca cr,
    post ObtainPair E Sample.login = Ok (issued, request') ∧
    cookies issued !! "jwt" = Some (SetCookie ca) ∧
    cookies issued !! "jwt_refresh" = Some (SetCookie cr) ∧
    TokenCookieDeleteView.post E Sample.with_refresh_cookie
    = Ok (cleared, Sample.with_refresh_cookie) ∧
    cookies cleared !! "jwt" = Some (DeleteCookie (domain ca) (path ca)) ∧
    cookies cleared !! "jwt_refresh" = Some (DeleteCookie None (path cr)) ∧
    domain cr = Some "example.com" ∧
    domain cr ≠ None.
Proof.
  intros E.
  exists (set_cookie
            (set_cookie
               (mkResponse {[ "access" := "A1"; "refresh" := "R1" ]} HTTP_200_OK)
               "jwt" (pair_access_cookie E "A1" 87400000000))
            "jwt_refresh" (pair_refresh_cookie E "R1" 87400000000)),
    (with_csrf_token Sample.login),
    (TokenCookieDeleteView.delete_auth_cookies E (mkResponse ∅ HTTP_200_OK)),
    (pair_access_cookie E "A1" 87400000000),
    (pair_refresh_cookie E "R1" 87400000000).
  repeat split; try (vm_compute; reflexivity). discriminate.
Qed.

(** * Further properties of the views *)

(** ** The shared [post], with the serializer lookup *)

Lemma TokenViewBase_post_unfold (E : Env) (cls : string)
    (self_set_auth_cookies : Response → Data → M Response) (request : Request) :
  TokenViewBase.post E cls self_set_auth_cookies request =
  match TokenViewBase.get_serializer_class E cls with
  | Raise e => Raise e
  | Ok serializer =>
      match serializer (data request) with
      | Ok d =>
          if cookie_transport E
          then self_set_auth_cookies (mkResponse d HTTP_200_OK) d
                 (with_csrf_token request)
          else Ok (mkResponse d HTTP_200_OK, request)
      | Raise (TokenError arg0) => Raise (InvalidToken arg0)
      | Raise e => Raise e
      end
  end.
Proof.
  destruct (TokenViewBase.get_serializer_class E cls) as [serializer|e] eqn:Hcls.
  - by apply TokenViewBase_post_run.
  - unfold TokenViewBase.post. rewrite bind_run.
    unfold get_request. rewrite bind_run.
    unfold lift at 1. by rewrite Hcls.
Qed.

(** The whole of [post], for every view. *)
Lemma post_unfold (v : View) (E : Env) (request : Request) :
  post v E request =
  match resolve v E request with
  | Raise e => Raise e
  | Ok request1 =>
      match TokenViewBase.get_serializer_class E (_serializer_class v E) with
      | Raise e => Raise e
      | Ok serializer =>
          match serializer (data request1) with
          | Ok d =>
              if cookie_transport E
              then set_auth_cookies v E (mkResponse d HTTP_200_OK) d
                     (with_csrf_token request1)
              else Ok (mkResponse d HTTP_200_OK, request1)
          | Raise (TokenError arg0) => Raise (InvalidToken arg0)
          | Raise e => Raise e
          end
      end
  end.
Proof.
  rewrite post_resolve. destruct (resolve v E request); [|done].
  apply TokenViewBase_post_unfold.
Qed.

(** The cookie delivery of every view leaves the request as it is, and
    only ever looks at its body. *)
Lemma set_auth_cookies_keeps_request (v : View) (E : Env) (response0 : Response)
    (d : Data) (request request' : Request) (response : Response) :
  set_auth_cookies v E response0 d request = Ok (response, request') →
  request' = request.
Proof.
  destruct (delivery_defined v E request d) eqn:Hd.
  - destruct (delivery_defined_Ok v E request d response0 Hd) as (r & -> & _).
    intros H. by simplify_eq.
  - destruct (delivery_undefined_Raise v E request d response0 Hd) as (e & ->).
    discriminate.
Qed.

(** The transport resolution never changes the cookie jar. *)
Lemma resolve_keeps_jar (v : View) (E : Env) (request request1 : Request) :
  resolve v E request = Ok request1 →
  COOKIES request1 = COOKIES request.
Proof.
  assert (∀ r1, TokenCookieViewMixin.extract_token_from_cookie E request = Ok r1 →
                COOKIES r1 = COOKIES request) as Hpair.
  { intros r1. unfold TokenCookieViewMixin.extract_token_from_cookie, setitem.
    repeat case_match; intros Hr1; by simplify_eq. }
  assert (∀ r1, SlidingTokenCookieViewMixin.extract_token_from_cookie E request = Ok r1 →
                COOKIES r1 = COOKIES request) as Hsliding.
  { intros r1. unfold SlidingTokenCookieViewMixin.extract_token_from_cookie, setitem.
    repeat case_match; intros Hr1; by simplify_eq. }
  unfold resolve. destruct v; try (intros Hr1; by simplify_eq);
    destruct (cookie_transport E); try (intros Hr1; by simplify_eq).
  - apply Hpair.
  - apply Hsliding.
Qed.

(** [set_auth_cookies] keeps the status, the payload and every cookie
    under another name than the two auth cookie names. *)
Lemma set_auth_cookies_frame (v : View) (E : Env) (response0 response : Response)
    (d : Data) (request request' : Request) :
  set_auth_cookies v E response0 d request = Ok (response, request') →
  request' = request ∧
  status_code response = status_code response0 ∧
  resp_data response = resp_data response0 ∧
  ∀ key,
    key ≠ AUTH_COOKIE (api_settings E) →
    key ≠ refresh_cookie_name E →
    cookies response !! key = cookies response0 !! key.
Proof.
  intros H.
  pose proof (set_auth_cookies_keeps_request _ _ _ _ _ _ _ H) as ->.
  split; [done|].
  destruct (is_pair v) eqn:Hp; [|destruct (is_sliding v) eqn:Hs].
  - rewrite is_pair_set_auth_cookies, pair_set_auth_cookies_run in H by done.
    destruct (get_refresh_token_expiration v E request) as [[expiry r]|e];
      [|discriminate].
    destruct (d !! "access") as [access|]; [|discriminate].
    cbv zeta in H.
    destruct (d !! "refresh") as [refresh|]; injection H as Hresponse _;
      subst response; cbn [set_cookie status_code resp_data cookies];
      (split; [done|]); (split; [done|]); intros key Ha Hr.
    + by rewrite !lookup_insert_ne.
    + by rewrite lookup_insert_ne.
  - rewrite is_sliding_set_auth_cookies, sliding_set_auth_cookies_run in H by done.
    destruct (d !! "token") as [token|]; [|discriminate].
    injection H as <-. cbn [set_cookie status_code resp_data cookies].
    split; [done|]. split; [done|]. intros key Ha Hr.
    by rewrite lookup_insert_ne.
  - destruct v; try discriminate; by injection H as <-.
Qed.

(** ** X1: what the extraction leaves behind *)

(** X1.  When a refresh view under cookie transport gets past
    [extract_token_from_cookie], the body it goes on with is never empty,
    the cookie jar and the CSRF state of the request are untouched, and
    the request is either the incoming one or the incoming empty-bodied
    one with exactly the view's field set to the non-empty value of the
    view's cookie.  Running the extraction again on the result changes
    nothing. *)
Theorem X1_extraction_settles (v : View) (E : Env) (request request1 : Request) :
  is_refresh v = true →
  cookie_transport E = true →
  resolve v E request = Ok request1 →
  data request1 ≠ ∅ ∧
  COOKIES request1 = COOKIES request ∧
  csrf_token request1 = csrf_token request ∧
  resolve v E request1 = Ok request1 ∧
  (request1 = request ∨
   data request = ∅ ∧
   ∃ token,
     token ≠ EmptyString ∧
     COOKIES request !! token_cookie_name v E = Some token ∧
     data request1 = {[ token_field v := token ]}).
Proof.
  intros Hv Hc. unfold resolve. rewrite Hc.
  destruct v; try discriminate; cbn [token_cookie_name token_field];
    unfold TokenRefreshView.extract_token_from_cookie,
      TokenRefreshSlidingView.extract_token_from_cookie.
  - destruct (decide (data request = ∅)) as [Hempty|Hne].
    + rewrite pair_extract_empty by done.
      destruct (COOKIES request !! refresh_cookie_name E) as [token|] eqn:Hjar;
        [|discriminate].
      destruct token as [|a token]; [discriminate|]. cbn [py_bool].
      destruct (data_mutable request); [|discriminate].
      intros H. injection H as <-. cbn [set_data data COOKIES csrf_token].
      split; [apply insert_non_empty|]. split; [done|]. split; [done|].
      split; [apply pair_extract_nonempty, insert_non_empty|].
      right. split; [done|]. by exists (String a token).
    + rewrite pair_extract_nonempty by done. intros H. injection H as <-.
      split; [done|]. split; [done|]. split; [done|].
      split; [by apply pair_extract_nonempty|]. by left.
  - destruct (decide (data request = ∅)) as [Hempty|Hne].
    + rewrite sliding_extract_empty by done.
      destruct (COOKIES request !! AUTH_COOKIE (api_settings E)) as [token|] eqn:Hjar;
        [|discriminate].
      destruct token as [|a token]; [discriminate|]. cbn [py_bool].
      destruct (data_mutable request); [|discriminate].
      intros H. injection H as <-. cbn [set_data data COOKIES csrf_token].
      split; [apply insert_non_empty|]. split; [done|]. split; [done|].
      split; [apply sliding_extract_nonempty, insert_non_empty|].
      right. split; [done|]. by exists (String a token).
    + rewrite sliding_extract_nonempty by done. intros H. injection H as <-.
      split; [done|]. split; [done|]. split; [done|].
      split; [by apply sliding_extract_nonempty|]. by left.
Qed.

(** Sample: the refresh from the cookie [jwt_refresh=R1]. *)
Lemma X1_extraction_settles_witness :
  let E := Sample.env false in
  let request1 := set_data Sample.with_refresh_cookie {[ "refresh" := "R1" ]} in
  data request1 ≠ ∅ ∧
  COOKIES request1 = COOKIES Sample.with_refresh_cookie ∧
  csrf_token request1 = csrf_token Sample.with_refresh_cookie ∧
  resolve RefreshPair E request1 = Ok request1 ∧
  (request1 = Sample.with_refresh_cookie ∨
   data Sample.with_refresh_cookie = ∅ ∧
   ∃ token,
     token ≠ EmptyString ∧
     COOKIES Sample.with_refresh_cookie !! token_cookie_name RefreshPair E
     = Some token ∧
     data request1 = {[ token_field RefreshPair := token ]}).
Proof.
  intros E request1.
  apply (X1_extraction_settles RefreshPair E Sample.with_refresh_cookie request1);
    vm_compute; reflexivity.
Defined.

(** ** X2: when the cookie jar is read *)

Lemma expiration_jar (v : View) (E : Env) (request : Request)
    (jar : gmap string string) :
  get_refresh_token_expiration v E (set_COOKIES request jar) =
  match get_refresh_token_expiration v E request with
  | Ok (expiry, request') => Ok (expiry, set_COOKIES request' jar)
  | Raise e => Raise e
  end.
Proof.
  destruct v; try reflexivity. cbn [get_refresh_token_expiration].
  rewrite !refresh_expiration_run. cbn [set_COOKIES data].
  by repeat case_match.
Qed.

Lemma set_auth_cookies_jar (v : View) (E : Env) (response0 : Response) (d : Data)
    (request : Request) (jar : gmap string string) :
  set_auth_cookies v E response0 d (set_COOKIES request jar) =
  match set_auth_cookies v E response0 d request with
  | Ok (response, request') => Ok (response, set_COOKIES request' jar)
  | Raise e => Raise e
  end.
Proof.
  destruct (is_pair v) eqn:Hp; [|destruct (is_sliding v) eqn:Hs].
  - rewrite is_pair_set_auth_cookies, !pair_set_auth_cookies_run, expiration_jar
      by done.
    destruct (get_refresh_token_expiration v E request) as [[expiry request']|e];
      [|done].
    by destruct (d !! "access").
  - rewrite is_sliding_set_auth_cookies, !sliding_set_auth_cookies_run by done.
    by destruct (d !! "token").
  - by destruct v.
Qed.

(** X2.  A view reads [request.COOKIES] only as a refresh view under
    cookie transport on an empty body.  In every other case (an obtain,
    verify or blacklist view; body transport; a body that is not empty)
    the outcome of [post] is the same whatever cookies the client sent:
    the same response or the same exception, and the request keeps the
    jar it came with. *)
Theorem X2_cookie_jar_unread (v : View) (E : Env) (request : Request)
    (jar : gmap string string) :
  reads_cookie_jar v E request = false →
  post v E (set_COOKIES request jar) =
  match post v E request with
  | Ok (response, request') => Ok (response, set_COOKIES request' jar)
  | Raise e => Raise e
  end.
Proof.
  intros Hread.
  assert (∀ r, data r = data request → resolve v E r = Ok r) as Hres.
  { intros r Hr. unfold reads_cookie_jar in Hread. unfold resolve.
    destruct v; try done; cbn [is_refresh andb] in Hread;
      destruct (cookie_transport E); try done; cbn [andb] in Hread;
      apply bool_decide_eq_false in Hread.
    - apply pair_extract_nonempty. by rewrite Hr.
    - apply sliding_extract_nonempty. by rewrite Hr. }
  rewrite !post_unfold, !Hres by done.
  destruct (TokenViewBase.get_serializer_class E (_serializer_class v E))
    as [serializer|e]; [|done].
  cbn [set_COOKIES data].
  destruct (serializer (data request)) as [d|e]; [|by destruct e].
  destruct (cookie_transport E); [|done].
  apply (set_auth_cookies_jar v E _ d (with_csrf_token request) jar).
Qed.

(** Sample: a refresh whose body carries a bad token is answered the
    same with a good refresh cookie in the jar as without any cookie. *)
Lemma X2_cookie_jar_unread_witness :
  let E := Sample.env false in
  let jar : gmap string string := {[ "jwt_refresh" := "R1" ]} in
  post RefreshPair E (set_COOKIES Custom.refresh_bad jar) =
  match post RefreshPair E Custom.refresh_bad with
  | Ok (response, request') => Ok (response, set_COOKIES request' jar)
  | Raise e => Raise e
  end.
Proof.
  intros E jar. apply (X2_cookie_jar_unread RefreshPair E Custom.refresh_bad jar).
  reflexivity.
Defined.

(** ** X3, X4: the errors that [post] does not translate *)

(** X3.  Only [TokenError] is translated.  Whatever else the validation
    raises (a validation error, an authentication failure, even an
    [InvalidToken] of the serializer's own) leaves [post] as the very same
    exception, for every view and under either transport. *)
Theorem X3_other_errors_pass (v : View) (E : Env) (request request1 : Request)
    (serializer : Serializer) (e : Exn) :
  resolve v E request = Ok request1 →
  TokenViewBase.get_serializer_class E (_serializer_class v E) = Ok serializer →
  serializer (data request1) = Raise e →
  (∀ arg0, e ≠ TokenError arg0) →
  post v E request = Raise e.
Proof.
  intros Hres Hcls Hser Hne. rewrite post_unfold, Hres, Hcls, Hser.
  destruct e; try done. by destruct (Hne arg0).
Qed.

(** Sample: a login with the wrong password fails with the serializer's
    own error. *)
Lemma X3_other_errors_pass_witness :
  let E := Sample.env false in
  let request :=
    {| data := {[ "username" := "a"; "password" := "b" ]}; data_mutable := true;
       COOKIES := ∅; csrf_token := false |} in
  post ObtainPair E request
  = Raise (OtherError "No active account found with the given credentials").
Proof.
  intros E request.
  apply (X3_other_errors_pass ObtainPair E request request Sample.obtain_pair);
    try reflexivity.
  intros arg0. discriminate.
Defined.

(** X4.  The serializer class is looked up only after the transport is
    resolved, and before anything is validated.  With a serializer path
    that cannot be imported: when the extraction raises, [post] still
    raises the extraction's exception; when the extraction succeeds,
    [post] raises the [ImportError] that names the path, whatever the
    request holds. *)
Theorem X4_unimportable_serializer (v : View) (E : Env) (request : Request) :
  import_string E (_serializer_class v E) = None →
  match resolve v E request with
  | Raise e => post v E request = Raise e
  | Ok _ =>
      post v E request
      = Raise (ImportError
                 ("Could not import serializer '" +:+ _serializer_class v E +:+ "'"))
  end.
Proof.
  intros Himport. rewrite post_unfold.
  destruct (resolve v E request) as [request1|e]; [|done].
  unfold TokenViewBase.get_serializer_class. cbn [TokenViewBase.serializer_class].
  by rewrite Himport.
Qed.

(** Sample, with no serializer importable: the login raises the
    [ImportError]; the refresh without body and cookie is still refused
    as not authenticated. *)
Lemma X4_unimportable_serializer_witness :
  let E := Custom.env_with None false in
  post ObtainPair E Sample.login
  = Raise (ImportError "Could not import serializer 'TokenObtainPairSerializer'") ∧
  post RefreshPair E {| data := ∅; data_mutable := true; COOKIES := ∅; csrf_token := false |}
  = Raise (NotAuthenticated "Refresh cookie not set. Try to authenticate first.").
Proof.
  intros E. split.
  - exact (X4_unimportable_serializer ObtainPair E Sample.login eq_refl).
  - exact (X4_unimportable_serializer RefreshPair E
             {| data := ∅; data_mutable := true; COOKIES := ∅; csrf_token := false |} eq_refl).
Defined.

(** ** X5, X6: failures of the cookie delivery after a valid request *)

(** X5.  A refresh without rotation under cookie transport parses the
    body's refresh token a second time, outside the [try] of [post].  So
    after a successful validation: a body without ['refresh'] ends in
    [KeyError('refresh')]; an exception of the token class ends [post] as
    it is, a [TokenError] included (it is NOT turned into
    [InvalidToken]); a payload without [exp] ends in [KeyError('exp')].
    This holds whether or not the validated payload has an access token. *)
Theorem X5_refresh_reparse_failure (E : Env) (request request1 : Request)
    (serializer : Serializer) (d : Data) :
  cookie_transport E = true →
  ROTATE_REFRESH_TOKENS (api_settings E) = false →
  resolve RefreshPair E request = Ok request1 →
  TokenViewBase.get_serializer_class E (_serializer_class RefreshPair E)
  = Ok serializer →
  serializer (data request1) = Ok d →
  (data request1 !! "refresh" = None →
   post RefreshPair E request = Raise (KeyError "refresh")) ∧
  (∀ raw e,
     data request1 !! "refresh" = Some raw →
     RefreshToken E raw = Raise e →
     post RefreshPair E request = Raise e) ∧
  (∀ raw payload,
     data request1 !! "refresh" = Some raw →
     RefreshToken E raw = Ok payload →
     payload !! "exp" = None →
     post RefreshPair E request = Raise (KeyError "exp")).
Proof.
  intros Hc Hrot Hres Hcls Hser.
  rewrite post_unfold, Hres, Hcls, Hser, Hc.
  cbn [set_auth_cookies]. unfold TokenRefreshView.set_auth_cookies.
  rewrite pair_set_auth_cookies_run, refresh_expiration_run, Hrot.
  cbn [with_csrf_token data]. repeat split.
  - by intros ->.
  - by intros raw e -> ->.
  - by intros raw payload -> -> ->.
Qed.

(** Sample, with a serializer that accepts every body: the body token
    [bad] is rejected by the token class and the [TokenError] escapes;
    a body without ['refresh'] ends in a [KeyError]. *)
Lemma X5_refresh_reparse_failure_witness :
  let E := Custom.env_with (Some Custom.lenient) false in
  post RefreshPair E Custom.refresh_bad
  = Raise (TokenError "Token is invalid or expired") ∧
  post RefreshPair E Sample.other_body = Raise (KeyError "refresh").
Proof.
  intros E. split.
  - apply (proj1 (proj2
             (X5_refresh_reparse_failure E Custom.refresh_bad Custom.refresh_bad
                Custom.lenient {[ "access" := "A9" ]}
                eq_refl eq_refl eq_refl eq_refl eq_refl)) "bad");
      reflexivity.
  - apply (proj1
             (X5_refresh_reparse_failure E Sample.other_body Sample.other_body
                Custom.lenient {[ "access" := "A9" ]}
                eq_refl eq_refl eq_refl eq_refl eq_refl)).
    reflexivity.
Defined.

(** X6.  Under cookie transport a valid request can still fail in the
    cookie delivery: a pair view whose expiration could be computed raises
    [KeyError('access')] when the validated payload has no access token,
    and a sliding view raises [KeyError('token')] when the payload has no
    token.  No response is returned. *)
Theorem X6_payload_without_token (v : View) (E : Env) (request request1 : Request)
    (serializer : Serializer) (d : Data) :
  cookie_transport E = true →
  resolve v E request = Ok request1 →
  TokenViewBase.get_serializer_class E (_serializer_class v E) = Ok serializer →
  serializer (data request1) = Ok d →
  (is_pair v = true →
   ∀ expiry,
     get_refresh_token_expiration v E (with_csrf_token request1)
     = Ok (expiry, with_csrf_token request1) →
     d !! "access" = None →
     post v E request = Raise (KeyError "access")) ∧
  (is_sliding v = true →
   d !! "token" = None →
   post v E request = Raise (KeyError "token")).
Proof.
  intros Hc Hres Hcls Hser. rewrite post_unfold, Hres, Hcls, Hser, Hc. split.
  - intros Hp expiry Hexp Ha.
    rewrite is_pair_set_auth_cookies, pair_set_auth_cookies_run by done.
    by rewrite Hexp, Ha.
  - intros Hs Ht.
    rewrite is_sliding_set_auth_cookies, sliding_set_auth_cookies_run by done.
    by rewrite Ht.
Qed.

(** Sample, with a serializer whose payload is empty. *)
Lemma X6_payload_without_token_witness :
  let E := Custom.env_with (Some Custom.bare) false in
  post ObtainPair E Sample.login = Raise (KeyError "access") ∧
  post ObtainSliding E Sample.login = Raise (KeyError "token").
Proof.
  intros E. split.
  - apply (proj1 (X6_payload_without_token ObtainPair E Sample.login Sample.login
                    Custom.bare ∅ eq_refl eq_refl eq_refl eq_refl)
             eq_refl 87400000000);
      reflexivity.
  - apply (proj2 (X6_payload_without_token ObtainSliding E Sample.login Sample.login
                    Custom.bare ∅ eq_refl eq_refl eq_refl eq_refl));
      reflexivity.
Defined.

(** ** X7, X8: what the cookie delivery touches *)

(** X7.  A response of a pair view under cookie transport carries one
    cookie when the payload has no refresh token and two when it has
    one, and never a cookie under another name than [AUTH_COOKIE] and
    [AUTH_COOKIE + '_refresh']. *)
Theorem X7_pair_cookie_count (v : View) (E : Env) (request request' : Request)
    (response : Response) :
  is_pair v = true →
  cookie_transport E = true →
  post v E request = Ok (response, request') →
  size (cookies response)
  = (if contains (resp_data response) "refresh" then 2 else 1)%nat ∧
  dom (cookies response)
  ⊆ ({[ AUTH_COOKIE (api_settings E); refresh_cookie_name E ]} : gset string).
Proof.
  intros Hv Hc H.
  apply pair_post_inv in H
    as (request1 & expiry & access & _ & _ & _ & _ & _ & Hcookies); [|done..].
  rewrite Hcookies. unfold contains.
  destruct (resp_data response !! "refresh") as [refresh|].
  - split.
    + rewrite map_size_insert_None.
      * by rewrite map_size_singleton.
      * apply lookup_singleton_ne, refresh_cookie_name_ne.
    + rewrite dom_insert_L, dom_singleton_L.
      apply union_least; [apply union_subseteq_r|apply union_subseteq_l].
  - split; [apply map_size_singleton|].
    rewrite dom_singleton_L. apply union_subseteq_l.
Qed.

(** Sample: the login sets two cookies. *)
Lemma X7_pair_cookie_count_witness :
  let E := Sample.env false in
  let response :=
    set_cookie
      (set_cookie
         (mkResponse {[ "access" := "A1"; "refresh" := "R1" ]} HTTP_200_OK)
         "jwt" (pair_access_cookie E "A1" 87400000000))
      "jwt_refresh" (pair_refresh_cookie E "R1" 87400000000) in
  size (cookies response) = 2%nat ∧
  dom (cookies response) ⊆ ({[ "jwt"; "jwt_refresh" ]} : gset string).
Proof.
  intros E response.
  apply (X7_pair_cookie_count ObtainPair E Sample.login
           (with_csrf_token Sample.login) response);
    vm_compute; reflexivity.
Defined.

(** X8.  [set_auth_cookies], on whatever response it is given and for
    every view, returns that response with the same status and the same
    payload, leaves every cookie under another name than [AUTH_COOKIE]
    and [AUTH_COOKIE + '_refresh'] as it was, and leaves the request as
    it was. *)
Theorem X8_delivery_frame (v : View) (E : Env) (response0 response : Response)
    (d : Data) (request request' : Request) :
  set_auth_cookies v E response0 d request = Ok (response, request') →
  request' = request ∧
  status_code response = status_code response0 ∧
  resp_data response = resp_data response0 ∧
  ∀ key,
    key ≠ AUTH_COOKIE (api_settings E) →
    key ≠ refresh_cookie_name E →
    cookies response !! key = cookies response0 !! key.
Proof. apply set_auth_cookies_frame. Qed.

(** Sample: delivering the pair cookies on a response that already holds
    a cookie [lang] keeps that cookie. *)
Lemma X8_delivery_frame_witness :
  let E := Sample.env true in
  let d : Data := {[ "access" := "A1" ]} in
  let response0 :=
    {| resp_data := d; status_code := 201;
       cookies := {[ "lang" := DeleteCookie None "/" ]} |} in
  let response := set_cookie response0 "jwt" (pair_access_cookie E "A1" 87400000000) in
  Sample.login = Sample.login ∧
  status_code response = 201 ∧
  resp_data response = d ∧
  ∀ key, key ≠ "jwt" → key ≠ "jwt_refresh" →
         cookies response !! key = cookies response0 !! key.
Proof.
  intros E d response0 response.
  apply (X8_delivery_frame ObtainPair E response0 response d Sample.login Sample.login).
  vm_compute; reflexivity.
Defined.

(** ** X11: the logout view *)

(** X11.  What the logout clears against what the views issue, under
    cookie transport.  The cookie [AUTH_COOKIE] of any pair or sliding
    response is cleared on exactly the domain and path it was issued
    with.  The refresh cookie of a pair response is cleared on the path
    it was issued with, but on the domain [None]: that is the domain it
    was issued with exactly when [AUTH_COOKIE_DOMAIN] is not set. *)
Theorem X11_logout_against_issued (v : View) (E : Env)
    (request request' request2 : Request) (issued : Response) :
  cookie_transport E = true →
  is_pair v || is_sliding v = true →
  post v E request = Ok (issued, request') →
  ∃ cleared ca,
    TokenCookieDeleteView.post E request2 = Ok (cleared, request2) ∧
    cookies issued !! AUTH_COOKIE (api_settings E) = Some (SetCookie ca) ∧
    cookies cleared !! AUTH_COOKIE (api_settings E)
    = Some (DeleteCookie (domain ca) (path ca)) ∧
    ∀ cr,
      cookies issued !! refresh_cookie_name E = Some (SetCookie cr) →
      cookies cleared !! refresh_cookie_name E
      = Some (DeleteCookie None (path cr)) ∧
      (domain cr = None ↔ AUTH_COOKIE_DOMAIN (api_settings E) = None).
Proof.
  intros Hc Hv H.
  destruct (delete_auth_cookies_run E request2 Hc) as (cleared & Hpost & Ha & Hr).
  exists cleared.
  destruct (is_pair v) eqn:Hp.
  - apply pair_post_inv in H
      as (request1 & expiry & access & _ & _ & _ & _ & _ & Hcookies); [|done..].
    exists (pair_access_cookie E access expiry).
    split; [done|]. rewrite Hcookies.
    destruct (resp_data issued !! "refresh") as [refresh|].
    + split.
      { rewrite lookup_insert_ne by (symmetry; apply refresh_cookie_name_ne).
        apply lookup_singleton_eq. }
      split; [done|]. intros cr Hcr.
      rewrite lookup_insert_eq in Hcr. injection Hcr as <-. by split.
    + split; [apply lookup_singleton_eq|]. split; [done|]. intros cr Hcr.
      rewrite lookup_singleton_ne in Hcr by apply refresh_cookie_name_ne.
      discriminate.
  - cbn [orb] in Hv.
    apply sliding_post_inv in H
      as (request1 & token & _ & _ & _ & _ & Hcookies); [|done..].
    exists (sliding_cookie E token).
    split; [done|]. rewrite Hcookies.
    split; [apply lookup_singleton_eq|]. split; [done|]. intros cr Hcr.
    rewrite lookup_singleton_ne in Hcr by apply refresh_cookie_name_ne.
    discriminate.
Qed.

(** Sample ([AUTH_COOKIE_DOMAIN = 'example.com']): after a login, the
    logout clears [jwt] on [example.com] and ["/"], and [jwt_refresh] on
    the refresh route without a domain. *)
Lemma X11_logout_against_issued_witness :
  let E := Sample.env false in
  let issued :=
    set_cookie
      (set_cookie
         (mkResponse {[ "access" := "A1"; "refresh" := "R1" ]} HTTP_200_OK)
         "jwt" (pair_access_cookie E "A1" 87400000000))
      "jwt_refresh" (pair_refresh_cookie E "R1" 87400000000) in
  ∃ cleared ca,
    TokenCookieDeleteView.post E Sample.with_refresh_cookie
    = Ok (cleared, Sample.with_refresh_cookie) ∧
    cookies issued !! "jwt" = Some (SetCookie ca) ∧
    cookies cleared !! "jwt" = Some (DeleteCookie (domain ca) (path ca)) ∧
    ∀ cr,
      cookies issued !! "jwt_refresh" = Some (SetCookie cr) →
      cookies cleared !! "jwt_refresh" = Some (DeleteCookie None (path cr)) ∧
      (domain cr = None ↔ Some "example.com" = None).
Proof.
  intros E issued.
  apply (X11_logout_against_issued ObtainPair E Sample.login
           (with_csrf_token Sample.login) Sample.with_refresh_cookie issued);
    vm_compute; reflexivity.
Defined.

(** ** X12: where a response comes from *)

(** X12.  A view returns a response only after the transport was
    resolved, the serializer imported and the body validated; the
    response has status [200] and exactly the validated payload, which
    the cookie delivery never alters.  The request that comes back is
    the resolved one, with the CSRF token issued exactly under cookie
    transport, and with the cookie jar it came with.  Under body
    transport, and for the verify and blacklist views under either
    transport, the response has no cookie. *)
Theorem X12_response_provenance (v : View) (E : Env) (request request' : Request)
    (response : Response) :
  post v E request = Ok (response, request') →
  ∃ request1 serializer,
    resolve v E request = Ok request1 ∧
    TokenViewBase.get_serializer_class E (_serializer_class v E) = Ok serializer ∧
    serializer (data request1) = Ok (resp_data response) ∧
    status_code response = HTTP_200_OK ∧
    request' = (if cookie_transport E then with_csrf_token request1 else request1) ∧
    COOKIES request' = COOKIES request ∧
    (cookie_transport E = false ∨ is_pair v || is_sliding v = false →
     cookies response = ∅).
Proof.
  intros H. pose proof H as Hpost. rewrite post_unfold in H.
  destruct (resolve v E request) as [request1|e] eqn:Hres; [|discriminate].
  destruct (TokenViewBase.get_serializer_class E (_serializer_class v E))
    as [serializer|e] eqn:Hcls; [|discriminate].
  destruct (serializer (data request1)) as [d|e] eqn:Hser; [|by destruct e].
  exists request1, serializer. split; [done|]. split; [done|].
  pose proof (resolve_keeps_jar _ _ _ _ Hres) as Hjar.
  destruct (cookie_transport E) eqn:Hc.
  - destruct (set_auth_cookies_frame _ _ _ _ _ _ _ H) as (-> & Hstatus & Hdata & _).
    rewrite Hdata. split; [done|]. split; [done|]. split; [done|].
    split; [done|]. intros [?|Hv]; [done|].
    apply orb_false_elim in Hv as [Hp Hs].
    by destruct (plain_post_inv v E request _ response Hp Hs Hpost).
  - injection H as <- <-. by repeat split.
Qed.

(** Sample: the refresh from the cookie [jwt_refresh=R1]. *)
Lemma X12_response_provenance_witness :
  let E := Sample.env false in
  let request1 := set_data Sample.with_refresh_cookie {[ "refresh" := "R1" ]} in
  let response :=
    set_cookie
      (set_cookie
         (mkResponse {[ "access" := "A2"; "refresh" := "R1" ]} HTTP_200_OK)
         "jwt" (pair_access_cookie E "A2" 5000000000))
      "jwt_refresh" (pair_refresh_cookie E "R1" 5000000000) in
  ∃ request1 serializer,
    resolve RefreshPair E Sample.with_refresh_cookie = Ok request1 ∧
    TokenViewBase.get_serializer_class E (_serializer_class RefreshPair E)
    = Ok serializer ∧
    serializer (data request1) = Ok (resp_data response) ∧
    status_code response = HTTP_200_OK ∧
    with_csrf_token (set_data Sample.with_refresh_cookie {[ "refresh" := "R1" ]})
    = (if cookie_transport E then with_csrf_token request1 else request1) ∧
    COOKIES (with_csrf_token
               (set_data Sample.with_refresh_cookie {[ "refresh" := "R1" ]}))
    = COOKIES Sample.with_refresh_cookie ∧
    (cookie_transport E = false ∨ is_pair RefreshPair || is_sliding RefreshPair = false →
     cookies response = ∅).
Proof.
  intros E request1 response.
  apply (X12_response_provenance RefreshPair E Sample.with_refresh_cookie
           (with_csrf_token request1) response).
  vm_compute; reflexivity.
Defined.

(** ** X13: the one cookie a refresh view reads *)

Lemma TokenViewBase_post_jar (v : View) (E : Env) (request1 : Request)
    (jar : gmap string string) :
  TokenViewBase.post E (_serializer_class v E) (set_auth_cookies v E)
    (set_COOKIES request1 jar) =
  match TokenViewBase.post E (_serializer_class v E) (set_auth_cookies v E) request1 with
  | Ok (response, request') => Ok (response, set_COOKIES request' jar)
  | Raise e => Raise e
  end.
Proof.
  rewrite !TokenViewBase_post_unfold.
  destruct (TokenViewBase.get_serializer_class E (_serializer_class v E))
    as [serializer|e]; [|done].
  cbn [set_COOKIES data].
  destruct (serializer (data request1)) as [d|e]; [|by destruct e].
  destruct (cookie_transport E); [|done].
  apply (set_auth_cookies_jar v E _ d (with_csrf_token request1) jar).
Qed.

Lemma extract_jar (E : Env) (name field : string) (request : Request)
    (jar : gmap string string)
    (extract : Request → Result Request) :
  (∀ r, extract r =
        if bool_decide (data r = ∅) then
          match COOKIES r !! name with
          | Some token =>
              if py_bool token
              then setitem r field token
              else Raise (NotAuthenticated refresh_cookie_not_set)
          | None => Raise (NotAuthenticated refresh_cookie_not_set)
          end
        else Ok r) →
  jar !! name = COOKIES request !! name →
  extract (set_COOKIES request jar) =
  match extract request with
  | Ok request1 => Ok (set_COOKIES request1 jar)
  | Raise e => Raise e
  end.
Proof.
  intros Hextract Hjar. rewrite !Hextract. unfold setitem.
  cbn [set_COOKIES data data_mutable COOKIES].
  rewrite Hjar. by repeat case_match.
Qed.

(** X13.  A refresh view depends on the cookie jar through one cookie
    only, [AUTH_COOKIE + '_refresh'] for the pair and [AUTH_COOKIE] for
    the sliding token: two jars that agree on that cookie give the same
    response or the same exception, whatever else they hold. *)
Theorem X13_one_cookie_read (v : View) (E : Env) (request : Request)
    (jar : gmap string string) :
  is_refresh v = true →
  jar !! token_cookie_name v E = COOKIES request !! token_cookie_name v E →
  post v E (set_COOKIES request jar) =
  match post v E request with
  | Ok (response, request') => Ok (response, set_COOKIES request' jar)
  | Raise e => Raise e
  end.
Proof.
  intros Hv Hjar. rewrite !post_resolve.
  assert (resolve v E (set_COOKIES request jar) =
          match resolve v E request with
          | Ok request1 => Ok (set_COOKIES request1 jar)
          | Raise e => Raise e
          end) as ->.
  { unfold resolve. destruct v; try discriminate;
      destruct (cookie_transport E); try done;
      cbn [token_cookie_name] in Hjar.
    - by apply (extract_jar E (refresh_cookie_name E) "refresh").
    - by apply (extract_jar E (AUTH_COOKIE (api_settings E)) "token"). }
  destruct (resolve v E request) as [request1|e]; [|done].
  apply TokenViewBase_post_jar.
Qed.

(** Sample: the refresh from [jwt_refresh=R1] is answered the same when
    the jar also holds a cookie [jwt]. *)
Lemma X13_one_cookie_read_witness :
  let E := Sample.env false in
  let jar : gmap string string := {[ "jwt_refresh" := "R1"; "jwt" := "S1" ]} in
  post RefreshPair E (set_COOKIES Sample.with_refresh_cookie jar) =
  match post RefreshPair E Sample.with_refresh_cookie with
  | Ok (response, request') => Ok (response, set_COOKIES request' jar)
  | Raise e => Raise e
  end.
Proof.
  intros E jar.
  apply (X13_one_cookie_read RefreshPair E Sample.with_refresh_cookie jar);
    vm_compute; reflexivity.
Defined.

(** ** X14: a refresh from the cookie with a form-encoded body *)

(** X14.  A refresh under cookie transport whose empty body does not
    accept assignment (the immutable [QueryDict] of a form-encoded
    request) and whose cookie holds a non-empty token never reaches the
    serializer: the assignment [request.data[field] = token] raises
    [AttributeError], for the pair and for the sliding view, whatever the
    serializer and the token are. *)
Theorem X14_immutable_body (v : View) (E : Env) (request : Request)
    (token : string) :
  is_refresh v = true →
  cookie_transport E = true →
  data request = ∅ →
  data_mutable request = false →
  COOKIES request !! token_cookie_name v E = Some token →
  token ≠ EmptyString →
  post v E request = Raise (AttributeError "This QueryDict instance is immutable").
Proof.
  intros Hv Hc Hempty Hmutable Hcookie Htoken.
  rewrite post_resolve. unfold resolve. rewrite Hc.
  destruct v; try discriminate; cbn [token_cookie_name] in Hcookie.
  - unfold TokenRefreshView.extract_token_from_cookie.
    by rewrite pair_extract_empty, Hcookie, py_bool_true, Hmutable.
  - unfold TokenRefreshSlidingView.extract_token_from_cookie.
    by rewrite sliding_extract_empty, Hcookie, py_bool_true, Hmutable.
Qed.

(** Sample: the form-encoded refresh with the cookie [jwt_refresh=R1]. *)
Lemma X14_immutable_body_witness :
  post RefreshPair (Sample.env false) Sample.form_with_refresh_cookie
  = Raise (AttributeError "This QueryDict instance is immutable").
Proof.
  apply (X14_immutable_body RefreshPair (Sample.env false)
           Sample.form_with_refresh_cookie "R1");
    try reflexivity.
  discriminate.
Defined.
